(** * acumatica-dev-tools: the main process ([src/main/main.ts])

    A shallow embedding of the Electron main module: the SQLite
    start-up block, the window reference, the start-up timer and the
    node-cron schedule that drive [GetInstances].

    Conventions.
    - Time is local wall-clock time in milliseconds ([Z]) since
      1970-01-01T00:00:00; the cron matcher works on whole seconds.
      Zone offsets are whole quarters of an hour, so the minute of the
      hour modulo 15 is the same on every clock.
    - A JavaScript computation is a function from the world to a
      completion (normal or thrown) and a new world.
    - Callbacks that the host calls later (sqlite3 callbacks, timers,
      cron tasks) run isolated: what they throw reaches no caller and is
      kept in [unhandled].
    - sqlite3 opens the file and runs the queued statements after the
      module body has returned.  Nothing else in main.ts touches the
      database, so the model runs them in place, in the order
      [db.serialize] gives them. *)

From Stdlib Require Import ZArith List String Ascii Bool Lia.
Import ListNotations.
Local Open Scope string_scope.
Local Open Scope list_scope.
Local Open Scope Z_scope.

(** ** JavaScript values *)

Record JsError := mkError { name : string; message : string }.

Inductive ConsoleCall :=
| ConsoleLog (args : list string)
| ConsoleError (args : list string).

Inductive Completion (A : Type) :=
| Normal (a : A)
| Throw (e : JsError).
Arguments Normal {A} a.
Arguments Throw {A} e.

(** ** The SQLite file *)

(** One row of the [settings] table, with the two columns the INSERT of
    main.ts names.  SQLite stores the flag as an integer. *)
Record SettingsRow := mkSettings { hostname : string; extractMsi : Z }.

(** How a stored integer flag reads as a boolean. *)
Definition flag (z : Z) : bool := negb (z =? 0).

(** Modelled from the spec: the columns of the [instances] table, whose
    schema file (assets/sql/create-instances.sql) is not among the
    sources.  An identity key, the mutable attributes (status and
    metadata fields) and a last-updated timestamp. *)
Record InstanceRow := mkInstanceRow {
  row_id : string;
  row_status : string;
  row_metadata : list (string * string);
  row_timestamp : Z
}.

(** A table that was never created is [None]. *)
Record Tables := mkTables {
  settings : option (list SettingsRow);
  instances : option (list InstanceRow)
}.

Inductive TableName := TSettings | TInstances.

(** The statements the start-up block can meet: the two schema files
    hold a CREATE TABLE (with or without IF NOT EXISTS), main.ts itself
    has the SELECT and the INSERT. *)
Inductive Sql :=
| CreateTable (ifNotExists : bool) (t : TableName)
| InsertSettings (h : string) (e : Z)
| SelectSettings.

Definition sqliteError (msg : string) : JsError := mkError "Error" msg.

Definition table_exists (t : TableName) (tb : Tables) : bool :=
  match t with
  | TSettings => match settings tb with Some _ => true | None => false end
  | TInstances => match instances tb with Some _ => true | None => false end
  end.

Definition create_table (t : TableName) (tb : Tables) : Tables :=
  match t with
  | TSettings => mkTables (Some []) (instances tb)
  | TInstances => mkTables (settings tb) (Some [])
  end.

(** SQLite's answer to one statement: an error or the result rows, and
    the tables afterwards. *)
Definition exec (q : Sql) (tb : Tables) : (JsError + list SettingsRow) * Tables :=
  match q with
  | CreateTable ine t =>
      if table_exists t tb then
        if ine then (inr [], tb)
        else (inl (sqliteError "SQLITE_ERROR: table already exists"), tb)
      else (inr [], create_table t tb)
  | InsertSettings h e =>
      match settings tb with
      | Some rows => (inr [], mkTables (Some (rows ++ [mkSettings h e])) (instances tb))
      | None => (inl (sqliteError "SQLITE_ERROR: no such table: settings"), tb)
      end
  | SelectSettings =>
      match settings tb with
      | Some rows => (inr rows, tb)
      | None => (inl (sqliteError "SQLITE_ERROR: no such table: settings"), tb)
      end
  end.

Inductive Handle := NotOpened | Opened | OpenFailed.

(** ** node-cron expressions *)

Inductive CronField :=
| Any                 (* "*"   *)
| Step (n : Z)        (* "*/n" *)
| Exact (n : Z).      (* "n"   *)

Record CronExpr := mkCron {
  c_second : CronField;
  c_minute : CronField;
  c_hour : CronField;
  c_day : CronField;
  c_month : CronField;
  c_weekday : CronField
}.

(** ** The world of the main process *)

Definition BrowserWindow := nat.

(** Who called [GetInstances]: [StartTasks] itself or the cron task. *)
Inductive Origin := Initial | Scheduled.

Record Call := mkCall { call_time : Z; call_origin : Origin; call_window : BrowserWindow }.

Record CronTask := mkTask {
  task_expr : CronExpr;
  task_window : BrowserWindow;     (* the window captured by the closure *)
  lastExecution : Z                (* second of the last match, or of arming *)
}.

(** The handler given to [app.whenReady().then]: not registered (the
    module stopped before, or the single-instance lock was refused),
    registered and waiting, or run. *)
Inductive Boot := Unregistered | AwaitingReady | Ready.

Record World := mkWorld {
  console : list ConsoleCall;          (* oldest first *)
  unhandled : list JsError;            (* errors that reached no handler *)
  dbHandle : Handle;
  tables : Tables;
  now : Z;                             (* milliseconds *)
  mainWindow : option BrowserWindow;   (* [let mainWindow: BrowserWindow | null] *)
  windowsCreated : nat;
  pendingCreate : nat;                 (* createWindow calls awaiting installExtensions *)
  boot : Boot;                         (* how far [app.whenReady().then] has come *)
  timeouts : list Z;                   (* due times of the pending start-up timers *)
  cronTasks : list CronTask;
  getInstancesCalls : list Call;       (* oldest first *)
  running : nat                        (* ghost: GetInstances calls not yet completed *)
}.

(** What the process finds around it. *)
Record Env := mkEnv {
  openError : option JsError;          (* the outcome of opening ./db.sqlite3 *)
  assets : string -> option Sql;       (* readable asset files, parsed *)
  isDevelopment : bool;
  gotTheLock : bool
}.

Definition pristine (start : Z) (tb : Tables) : World :=
  mkWorld [] [] NotOpened tb start None 0 0 Unregistered [] [] [] 0.

(** Field updates. *)
Definition add_console (c : ConsoleCall) (w : World) : World :=
  mkWorld (console w ++ [c]) (unhandled w) (dbHandle w) (tables w) (now w)
    (mainWindow w) (windowsCreated w) (pendingCreate w) (boot w)
    (timeouts w) (cronTasks w) (getInstancesCalls w) (running w).

Definition add_unhandled (e : JsError) (w : World) : World :=
  mkWorld (console w) (unhandled w ++ [e]) (dbHandle w) (tables w) (now w)
    (mainWindow w) (windowsCreated w) (pendingCreate w) (boot w)
    (timeouts w) (cronTasks w) (getInstancesCalls w) (running w).

Definition set_dbHandle (h : Handle) (w : World) : World :=
  mkWorld (console w) (unhandled w) h (tables w) (now w)
    (mainWindow w) (windowsCreated w) (pendingCreate w) (boot w)
    (timeouts w) (cronTasks w) (getInstancesCalls w) (running w).

Definition set_tables (tb : Tables) (w : World) : World :=
  mkWorld (console w) (unhandled w) (dbHandle w) tb (now w)
    (mainWindow w) (windowsCreated w) (pendingCreate w) (boot w)
    (timeouts w) (cronTasks w) (getInstancesCalls w) (running w).

Definition set_now (t : Z) (w : World) : World :=
  mkWorld (console w) (unhandled w) (dbHandle w) (tables w) t
    (mainWindow w) (windowsCreated w) (pendingCreate w) (boot w)
    (timeouts w) (cronTasks w) (getInstancesCalls w) (running w).

Definition set_mainWindow (m : option BrowserWindow) (w : World) : World :=
  mkWorld (console w) (unhandled w) (dbHandle w) (tables w) (now w)
    m (windowsCreated w) (pendingCreate w) (boot w)
    (timeouts w) (cronTasks w) (getInstancesCalls w) (running w).

Definition set_windowsCreated (n : nat) (w : World) : World :=
  mkWorld (console w) (unhandled w) (dbHandle w) (tables w) (now w)
    (mainWindow w) n (pendingCreate w) (boot w)
    (timeouts w) (cronTasks w) (getInstancesCalls w) (running w).

Definition set_pendingCreate (n : nat) (w : World) : World :=
  mkWorld (console w) (unhandled w) (dbHandle w) (tables w) (now w)
    (mainWindow w) (windowsCreated w) n (boot w)
    (timeouts w) (cronTasks w) (getInstancesCalls w) (running w).

Definition set_boot (b : Boot) (w : World) : World :=
  mkWorld (console w) (unhandled w) (dbHandle w) (tables w) (now w)
    (mainWindow w) (windowsCreated w) (pendingCreate w) b
    (timeouts w) (cronTasks w) (getInstancesCalls w) (running w).

Definition set_timeouts (l : list Z) (w : World) : World :=
  mkWorld (console w) (unhandled w) (dbHandle w) (tables w) (now w)
    (mainWindow w) (windowsCreated w) (pendingCreate w) (boot w)
    l (cronTasks w) (getInstancesCalls w) (running w).

Definition set_cronTasks (l : list CronTask) (w : World) : World :=
  mkWorld (console w) (unhandled w) (dbHandle w) (tables w) (now w)
    (mainWindow w) (windowsCreated w) (pendingCreate w) (boot w)
    (timeouts w) l (getInstancesCalls w) (running w).

Definition add_call (c : Call) (w : World) : World :=
  mkWorld (console w) (unhandled w) (dbHandle w) (tables w) (now w)
    (mainWindow w) (windowsCreated w) (pendingCreate w) (boot w)
    (timeouts w) (cronTasks w) (getInstancesCalls w ++ [c]) (S (running w)).

Definition set_running (n : nat) (w : World) : World :=
  mkWorld (console w) (unhandled w) (dbHandle w) (tables w) (now w)
    (mainWindow w) (windowsCreated w) (pendingCreate w) (boot w)
    (timeouts w) (cronTasks w) (getInstancesCalls w) n.

(** ** The effect monad *)

Definition JS (A : Type) : Type := World -> Completion A * World.

Definition ret {A} (a : A) : JS A := fun w => (Normal a, w).

Definition bind {A B} (m : JS A) (k : A -> JS B) : JS B :=
  fun w =>
    match m w with
    | (Normal a, w') => k a w'
    | (Throw e, w') => (Throw e, w')
    end.

Definition throw {A} (e : JsError) : JS A := fun w => (Throw e, w).

Definition modify (f : World -> World) : JS unit := fun w => (Normal tt, f w).

Declare Scope js_scope.
Delimit Scope js_scope with js.
Notation "x <- m ;; k" := (bind m (fun x => k))
  (at level 61, m at next level, right associativity) : js_scope.
Notation "m ;; k" := (bind m (fun _ => k))
  (at level 61, right associativity) : js_scope.
Local Open Scope js_scope.

(** A callback run by the host: what it throws reaches no caller. *)
Definition isolated (m : JS unit) (w : World) : World :=
  match m w with
  | (Normal _, w') => w'
  | (Throw e, w') => add_unhandled e w'
  end.

Definition console_log (args : list string) : JS unit := modify (add_console (ConsoleLog args)).
Definition console_error (args : list string) : JS unit := modify (add_console (ConsoleError args)).

(** ** sqlite3 calls *)

Definition closedError : JsError := sqliteError "SQLITE_MISUSE: Database is closed".

(** A statement sent through the handle: it reaches the file only when
    the handle is open. *)
Definition db_exec (q : Sql) (w : World) : (JsError + list SettingsRow) * World :=
  match dbHandle w with
  | Opened => let (r, tb) := exec q (tables w) in (r, set_tables tb w)
  | _ => (inl closedError, w)
  end.

(** [db.prepare(sql).run().finalize()]: no callback is given, so an
    error of the statement reaches no handler. *)
Definition db_run (q : Sql) : JS unit :=
  fun w =>
    match db_exec q w with
    | (inr _, w') => (Normal tt, w')
    | (inl e, w') => (Normal tt, add_unhandled e w')
    end.

(** [db.all(sql, [], callback)]: the callback gets the rows, or the
    error alone (its second argument is then [undefined], here [None]). *)
Definition db_all (q : Sql)
    (callback : option JsError -> option (list SettingsRow) -> JS unit) : JS unit :=
  fun w =>
    match db_exec q w with
    | (inr rows, w') => (Normal tt, isolated (callback None (Some rows)) w')
    | (inl e, w') => (Normal tt, isolated (callback (Some e) None) w')
    end.

Definition typeErrorLength : JsError :=
  mkError "TypeError" "Cannot read properties of undefined (reading 'length')".

(** [rows.length]; reading a property of [undefined] throws. *)
Definition rows_length (rows : option (list SettingsRow)) : JS Z :=
  match rows with
  | Some l => ret (Z.of_nat (List.length l))
  | None => throw typeErrorLength
  end.

(** [fs.readFileSync(getAssetPath(p)).toString()]. *)
Definition readFileSync (env : Env) (p : string) : JS Sql :=
  match assets env p with
  | Some q => ret q
  | None => throw (mkError "Error" "ENOENT: no such file or directory")
  end.

(** ** main.ts, lines 85-87: the callback of [new sqlite.Database] *)
Definition dbOpenCallback (err : option JsError) : JS unit :=
  match err with
  | Some e => console_error ["Database opening error: "; message e]
  | None => ret tt
  end.

(** [new sqlite.Database('./db.sqlite3', callback)]: the handle is open
    or has failed, and the callback is told. *)
Definition openDatabase (env : Env) : JS unit :=
  match openError env with
  | None => fun w => (Normal tt, isolated (dbOpenCallback None) (set_dbHandle Opened w))
  | Some e => fun w => (Normal tt, isolated (dbOpenCallback (Some e)) (set_dbHandle OpenFailed w))
  end.

(** ** main.ts, lines 102-116: the callback of [db.all] *)
Definition settingsCallback (err : option JsError) (rows : option (list SettingsRow)) : JS unit :=
  match err with
  | Some e => console_error [message e]
  | None => ret tt
  end ;;
  n <- rows_length rows ;;
  if n =? 0 then
    console_log ["Initalizing SQLite..."] ;;
    db_run (InsertSettings "localhost" 0)
  else ret tt.

(** ** main.ts, lines 89-117: the body given to [db.serialize] *)

(** Lines 90-100: the two schema files, each read and run. *)
Definition createSchema (env : Env) : JS unit :=
  q1 <- readFileSync env "sql/create-settings.sql" ;;
  db_run q1 ;;
  q2 <- readFileSync env "sql/create-instances.sql" ;;
  db_run q2.

(** Lines 102-116: the settings are read and, when there are none,
    written. *)
Definition ensureSettings : JS unit :=
  db_all SelectSettings settingsCallback.

Definition serializeBlock (env : Env) : JS unit :=
  createSchema env ;;
  ensureSettings.

(** ** node-cron: reading and matching an expression *)

(** node-cron is a dependency, not code of this repository.  The model
    covers the fields "*", "*/n" and plain numbers, which is what the
    expression of main.ts needs; node-cron turns "*/n" into the values
    of the field's range that n divides. *)

Fixpoint parse_digits (s : string) (acc : Z) : option Z :=
  match s with
  | EmptyString => Some acc
  | String c r =>
      let n := Z.of_nat (nat_of_ascii c) in
      if (48 <=? n) && (n <=? 57) then parse_digits r (10 * acc + (n - 48)) else None
  end.

Definition parse_number (s : string) : option Z :=
  match s with
  | EmptyString => None
  | _ => parse_digits s 0
  end.

(** One field: "*", "*/n" with n > 0, or a number. *)
Definition parse_field (s : string) : option CronField :=
  match s with
  | String "*"%char EmptyString => Some Any
  | String "*"%char (String "/"%char r) =>
      match parse_number r with
      | Some n => if n =? 0 then None else Some (Step n)
      | None => None
      end
  | _ => option_map Exact (parse_number s)
  end.

Fixpoint split_on (sep : ascii) (s : string) (cur : string) : list string :=
  match s with
  | EmptyString => [cur]
  | String c r =>
      if Ascii.eqb c sep then cur :: split_on sep r EmptyString
      else split_on sep r (cur ++ String c EmptyString)%string
  end.

(** Five fields are minute, hour, day, month and weekday, with the
    second taken as 0; six fields start with the second. *)
Definition parse_cron (s : string) : option CronExpr :=
  match map parse_field (split_on " "%char s EmptyString) with
  | [Some mi; Some h; Some d; Some mo; Some wd] =>
      Some (mkCron (Exact 0) mi h d mo wd)
  | [Some se; Some mi; Some h; Some d; Some mo; Some wd] =>
      Some (mkCron se mi h d mo wd)
  | _ => None
  end.

(** The calendar fields of a wall-clock second (seconds since a local
    1970-01-01T00:00:00, a Thursday). *)
Definition second_of (s : Z) : Z := s mod 60.
Definition minute_of (s : Z) : Z := (s / 60) mod 60.
Definition hour_of (s : Z) : Z := (s / 3600) mod 24.
Definition days_of (s : Z) : Z := s / 86400.
Definition weekday_of (s : Z) : Z := (days_of s + 4) mod 7.

(** Day of the year counted from 1 March, and the month index from
    March, of the proleptic Gregorian calendar. *)
Definition march_day (s : Z) : Z :=
  let z := days_of s + 719468 in
  let doe := z mod 146097 in
  let yoe := (doe - doe / 1460 + doe / 36524 - doe / 146096) / 365 in
  doe - (365 * yoe + yoe / 4 - yoe / 100).

Definition month_of (s : Z) : Z :=
  let mp := (5 * march_day s + 2) / 153 in
  if mp <? 10 then mp + 3 else mp - 9.

Definition day_of (s : Z) : Z :=
  let doy := march_day s in
  let mp := (5 * doy + 2) / 153 in
  doy - (153 * mp + 2) / 5 + 1.

Definition field_match (f : CronField) (v : Z) : bool :=
  match f with
  | Any => true
  | Step n => v mod n =? 0
  | Exact n => v =? n
  end.

Definition cron_match (e : CronExpr) (s : Z) : bool :=
  field_match (c_second e) (second_of s) &&
  field_match (c_minute e) (minute_of s) &&
  field_match (c_hour e) (hour_of s) &&
  field_match (c_day e) (day_of s) &&
  field_match (c_month e) (month_of s) &&
  field_match (c_weekday e) (weekday_of s).

(** The second a millisecond instant lies in. *)
Definition second_at (ms : Z) : Z := ms / 1000.

(** [cron.schedule(expression, task)]: an expression that does not
    parse is refused with an exception; the new task remembers the
    second it was armed in and fires in later seconds only. *)
Definition cron_schedule (expression : string) (win : BrowserWindow) : JS unit :=
  match parse_cron expression with
  | Some e =>
      fun w => (Normal tt,
                set_cronTasks (cronTasks w ++ [mkTask e win (second_at (now w))]) w)
  | None => throw (mkError "Error" "invalid cron expression")
  end.

(** A task fires in a second it has not fired in and that its
    expression matches. *)
Definition fires (sec : Z) (t : CronTask) : bool :=
  (lastExecution t <? sec) && cron_match (task_expr t) sec.

Definition mark_fired (sec : Z) (t : CronTask) : CronTask :=
  if fires sec t then mkTask (task_expr t) (task_window t) sec else t.

(** ** main.ts, lines 246-252 *)

(** [GetInstances(mainWindow, db)] lives in ./actions/getInstances,
    which is not part of this file: the call is recorded with its time,
    its caller and the window it was given, and counted as running
    until the host reports its end. *)
Definition GetInstances (o : Origin) (win : BrowserWindow) : JS unit :=
  fun w => (Normal tt, add_call (mkCall (now w) o win) w).

(** The arrow function given to [cron.schedule]. *)
Definition cronCallback (win : BrowserWindow) : JS unit :=
  GetInstances Scheduled win.

Definition StartTasks (win : BrowserWindow) : JS unit :=
  console_log ["Starting tasks"] ;;
  GetInstances Initial win ;;
  cron_schedule "*/15 * * * *" win.

(** ** main.ts, lines 119-185 and 212-243 *)

(** [createWindow] from [mainWindow = new BrowserWindow(...)] on. *)
Definition createWindowBody : JS unit :=
  fun w => (Normal tt,
            set_windowsCreated (S (windowsCreated w))
              (set_mainWindow (Some (windowsCreated w)) w)).

(** [createWindow]: in development it first awaits
    [installExtensions()], so the rest runs in a later turn. *)
Definition createWindow (env : Env) : JS unit :=
  if isDevelopment env then
    fun w => (Normal tt, set_pendingCreate (S (pendingCreate w)) w)
  else createWindowBody.

(** The function given to [setTimeout(..., 5000)]. *)
Definition startupTimerCallback : JS unit :=
  fun w =>
    match mainWindow w with
    | Some win => StartTasks win w
    | None => (Normal tt, w)
    end.

Definition startupDelay : Z := 5000.

Definition setTimeout (delay : Z) : JS unit :=
  fun w => (Normal tt, set_timeouts (timeouts w ++ [now w + delay]) w).

(** The handler given to [app.whenReady().then]. *)
Definition whenReadyHandler (env : Env) : JS unit :=
  createWindow env ;;
  setTimeout startupDelay.

(** The ['activate'] handler. *)
Definition activateHandler (env : Env) : JS unit :=
  fun w =>
    match mainWindow w with
    | None => createWindow env w
    | Some _ => (Normal tt, w)
    end.

(** The module body, top to bottom: the database handle, the
    serialized start-up block, then the single-instance lock and the
    registration with [app.whenReady()].  Without the lock the module
    calls [app.quit()] and registers nothing. *)
Definition main (env : Env) : JS unit :=
  openDatabase env ;;
  serializeBlock env ;;
  if gotTheLock env then modify (set_boot AwaitingReady) else ret tt.

(** ** The event loop *)

(** The events that bear on the window reference, the timer and the
    schedule.  The time of each turn comes with it. *)

Inductive Event :=
| AppReady                (* app.whenReady() resolves *)
| ExtensionsInstalled     (* an awaited installExtensions() resolves *)
| WindowClosed            (* 'closed' on the main window *)
| Activate                (* 'activate' on the app *)
| TimerFires              (* the loop runs the timers that are due *)
| CronClock               (* node-cron looks at the clock *)
| PipelineDone.           (* a GetInstances call has ended *)

Definition runTimers (w : World) : World :=
  let due := filter (fun d => d <=? now w) (timeouts w) in
  let rest := filter (fun d => negb (d <=? now w)) (timeouts w) in
  fold_left (fun w' _ => isolated startupTimerCallback w') due (set_timeouts rest w).

Definition cronClock (w : World) : World :=
  let sec := second_at (now w) in
  let due := filter (fires sec) (cronTasks w) in
  fold_left (fun w' t => isolated (cronCallback (task_window t)) w') due
    (set_cronTasks (map (mark_fired sec) (cronTasks w)) w).

(** One turn of the loop at wall-clock time [t]; the clock never runs
    backwards. *)
Definition dispatch (env : Env) (t : Z) (e : Event) (w0 : World) : World :=
  let w := set_now (Z.max (now w0) t) w0 in
  match e with
  | AppReady =>
      match boot w with
      | AwaitingReady => isolated (whenReadyHandler env) (set_boot Ready w)
      | _ => w
      end
  | ExtensionsInstalled =>
      match pendingCreate w with
      | S n => isolated createWindowBody (set_pendingCreate n w)
      | O => w
      end
  | WindowClosed => set_mainWindow None w
  | Activate =>
      match boot w with
      | Ready => isolated (activateHandler env) w
      | _ => w
      end
  | TimerFires => runTimers w
  | CronClock => cronClock w
  | PipelineDone => set_running (pred (running w)) w
  end.

Fixpoint run (env : Env) (trace : list (Z * Event)) (w : World) : World :=
  match trace with
  | [] => w
  | (t, e) :: rest => run env rest (dispatch env t e w)
  end.

(** The world once the module body has run, for a process started at
    [start] over the file [tb], and how the module body completed. *)
Definition launch (env : Env) (start : Z) (tb : Tables) : Completion unit * World :=
  main env (pristine start tb).

Definition initial_runs (w : World) : nat :=
  List.length (filter (fun c => match call_origin c with Initial => true | Scheduled => false end)
                 (getInstancesCalls w)).

(** ** The reconciler *)

(** Modelled from the spec: a record as the Remote Fetcher returns it
    (section 4.2); ./actions/getInstances is not among the sources.  An
    identity key and the mutable attributes. *)
Record InstanceRecord := mkRecord {
  rec_id : string;
  rec_status : string;
  rec_metadata : list (string * string)
}.

(** The rows of the [instances] table, in insertion order.  Nothing in
    the type keeps two rows from sharing a key. *)
Definition Store := list InstanceRow.

Definition has_id (id : string) (row : InstanceRow) : bool := String.eqb (row_id row) id.

(** Modelled from the spec: "look up by identity key in the Persistent
    Store" (section 4.3). *)
Definition lookupInstance (id : string) (st : Store) : option InstanceRow :=
  find (has_id id) st.

Fixpoint metadata_eqb (a b : list (string * string)) : bool :=
  match a, b with
  | [], [] => true
  | (k, v) :: a', (k', v') :: b' =>
      String.eqb k k' && String.eqb v v' && metadata_eqb a' b'
  | _, _ => false
  end.

(** Modelled from the spec: "any mutable attribute differs" is the
    negation of this test; the timestamp is not compared. *)
Definition same_attributes (r : InstanceRecord) (row : InstanceRow) : bool :=
  String.eqb (rec_status r) (row_status row) &&
  metadata_eqb (rec_metadata r) (row_metadata row).

Definition row_of (t : Z) (r : InstanceRecord) : InstanceRow :=
  mkInstanceRow (rec_id r) (rec_status r) (rec_metadata r) t.

Inductive Upsert := Created | Updated.

Inductive StoreError := StorageWriteError (id : string).

(** The categorized result of one pass (section 4.3), with the keys of
    the records whose write failed. *)
Record ChangeSet := mkChangeSet {
  added : list string;
  updated : list string;
  unchanged : list string;
  errors : list string
}.

Definition emptyChangeSet : ChangeSet := mkChangeSet [] [] [] [].

Section Reconciler.

(** Which writes the storage refuses: at time [t], for record [r]. *)
Variable write_fails : Z -> InstanceRecord -> bool.

(** Modelled from the spec: [upsertInstance(record)] "inserts if
    identity key is new, otherwise updates mutable fields and the
    timestamp; returns whether the row was newly created or updated;
    fails with StorageWriteError" (section 4.1). *)
Definition upsertInstance (t : Z) (r : InstanceRecord) (st : Store)
    : StoreError + (Upsert * Store) :=
  if write_fails t r then inl (StorageWriteError (rec_id r))
  else
    match lookupInstance (rec_id r) st with
    | None => inr (Created, st ++ [row_of t r])
    | Some _ =>
        inr (Updated,
             map (fun row => if has_id (rec_id r) row then row_of t r else row) st)
    end.

(** Modelled from the spec: one fetched record of [reconcile]
    (section 4.3): absent, added and upserted; present and different,
    updated and upserted; present and the same, unchanged with no
    write.  A failed write is reported and the pass goes on. *)
Definition reconcileRecord (t : Z) (r : InstanceRecord) (acc : ChangeSet * Store)
    : ChangeSet * Store :=
  let (cs, st) := acc in
  let failed := mkChangeSet (added cs) (updated cs) (unchanged cs) (errors cs ++ [rec_id r]) in
  match lookupInstance (rec_id r) st with
  | None =>
      match upsertInstance t r st with
      | inr (_, st') =>
          (mkChangeSet (added cs ++ [rec_id r]) (updated cs) (unchanged cs) (errors cs), st')
      | inl _ => (failed, st)
      end
  | Some row =>
      if same_attributes r row then
        (mkChangeSet (added cs) (updated cs) (unchanged cs ++ [rec_id r]) (errors cs), st)
      else
        match upsertInstance t r st with
        | inr (_, st') =>
            (mkChangeSet (added cs) (updated cs ++ [rec_id r]) (unchanged cs) (errors cs), st')
        | inl _ => (failed, st)
        end
  end.

(** Modelled from the spec: [reconcile(fetchedRecords)], the records
    taken in sequence, so of two records with one key the later wins. *)
Definition reconcile (t : Z) (fetched : list InstanceRecord) (st : Store)
    : ChangeSet * Store :=
  fold_left (fun acc r => reconcileRecord t r acc) fetched (emptyChangeSet, st).

(** A sequence of fetch results, each with the time of its run. *)
Definition reconcileAll (fetches : list (Z * list InstanceRecord)) (st : Store) : Store :=
  fold_left (fun st' f => snd (reconcile (fst f) (snd f) st')) fetches st.

End Reconciler.

Definition keys (st : Store) : list string := map row_id st.

(** ** The schema files as the spec describes them *)

(** Modelled from the spec: the content of assets/sql/create-settings.sql
    and assets/sql/create-instances.sql, which are not among the
    sources: "creates tables if absent; no-op otherwise" (section 4.1). *)
Definition specAssets (p : string) : option Sql :=
  if String.eqb p "sql/create-settings.sql" then Some (CreateTable true TSettings)
  else if String.eqb p "sql/create-instances.sql" then Some (CreateTable true TInstances)
  else None.

Definition defaultSettings : SettingsRow := mkSettings "localhost" 0.

(** The expression of [StartTasks], parsed. *)
Definition quarterHourly : CronExpr := mkCron (Exact 0) (Step 15) Any Any Any Any.


(** A world in which nothing can start the pipeline any more. *)
Definition dormant (w : World) : Prop :=
  boot w <> AwaitingReady /\ timeouts w = [] /\ cronTasks w = [] /\ getInstancesCalls w = [].


(** ** The two phases of the scheduler *)

Definition call_second (c : Call) : Z := second_at (call_time c).

(** Each call lies in an earlier second than all the calls after it. *)
Fixpoint later_seconds (l : list Call) : Prop :=
  match l with
  | [] => True
  | c :: rest => Forall (fun c' => call_second c < call_second c') rest /\ later_seconds rest
  end.

(** Before [StartTasks]: no run, no schedule, the ready handler still
    to come or at most its one timer pending. *)
Definition not_started (start : Z) (w : World) : Prop :=
  getInstancesCalls w = [] /\ cronTasks w = [] /\ start <= now w /\
  match boot w with
  | AwaitingReady => timeouts w = []
  | _ => timeouts w = [] \/ exists d, timeouts w = [d] /\ start + startupDelay <= d
  end.

(** A run made by the schedule armed for window [win], after the
    initial run at [t0], in a second not after [a]. *)
Definition scheduled_call (win : BrowserWindow) (t0 a : Z) (c : Call) : Prop :=
  call_origin c = Scheduled /\ call_window c = win /\
  call_second c mod 900 = 0 /\ t0 <= call_time c /\ call_second c <= a.

(** After [StartTasks]: the initial run first, one schedule, the
    scheduled runs in later and later seconds. *)
Definition started (start : Z) (w : World) : Prop :=
  exists win a t0 rest,
    boot w <> AwaitingReady /\ timeouts w = [] /\
    cronTasks w = [mkTask quarterHourly win a] /\
    getInstancesCalls w = mkCall t0 Initial win :: rest /\
    start + startupDelay <= t0 /\ t0 <= now w /\ second_at t0 <= a /\
    Forall (scheduled_call win t0 a) rest /\
    later_seconds (mkCall t0 Initial win :: rest).

Definition phase (start : Z) (w : World) : Prop :=
  not_started start w \/ started start w.

(** What the scheduler and the window handlers read and write. *)
Definition scheduler_part (w : World) :=
  (boot w, timeouts w, cronTasks w, getInstancesCalls w, now w,
   mainWindow w, (windowsCreated w, pendingCreate w, running w)).

(** A computation that leaves all of that alone. *)
Definition db_only {A} (m : JS A) : Prop :=
  forall w, scheduler_part (snd (m w)) = scheduler_part w.

(** ** The window handlers, the tray and quitting (main.ts, lines 138-168
    and 191-229) *)

(** Electron is a dependency.  What the model takes from it: a window
    asked to close gets ['close'] and closes unless the handler calls
    [preventDefault]; a window that has closed gets ['closed'];
    [destroy()] closes without ['close']; [app.quit()] emits
    ['before-quit'], asks every open window to close and ends the
    process when none is left; ['window-all-closed'] is emitted when
    the last window closes outside of a quit.  What a method such as
    [hide()] does to a window is left to Electron: the model records
    the call. *)
Inductive WindowCall :=
| CallShow | CallHide | CallMinimize | CallRestore | CallFocus | CallDestroy.

(** What the handlers read of the machine. *)
Record Desktop := mkDesktop {
  startMinimized : bool;     (* [process.env.START_MINIMIZED] is set and not empty *)
  darwin : bool              (* [process.platform === 'darwin'] *)
}.

Record Shell := mkShell {
  core : World;
  isQuiting : bool;                                (* [let isQuiting: boolean], unset read as false *)
  openWindows : list BrowserWindow;                (* made and not closed *)
  windowCalls : list (BrowserWindow * WindowCall); (* oldest first *)
  quitCalls : nat;                                 (* calls of [app.quit()] *)
  exited : bool                                    (* the process has ended *)
}.

Definition shell_of (w : World) : Shell := mkShell w false [] [] 0 false.

Definition with_core (f : World -> World) (s : Shell) : Shell :=
  mkShell (f (core s)) (isQuiting s) (openWindows s) (windowCalls s) (quitCalls s) (exited s).

Definition record_call (win : BrowserWindow) (c : WindowCall) (s : Shell) : Shell :=
  mkShell (core s) (isQuiting s) (openWindows s) (windowCalls s ++ [(win, c)])
    (quitCalls s) (exited s).

(** [mainWindow?.method()]. *)
Definition on_main (c : WindowCall) (s : Shell) : Shell :=
  match mainWindow (core s) with
  | Some win => record_call win c s
  | None => s
  end.

Definition is_open (win : BrowserWindow) (s : Shell) : bool :=
  existsb (Nat.eqb win) (openWindows s).

Definition notDefinedError : JsError :=
  mkError "Error"
    (String (Ascii.ascii_of_nat 34)
       (String.append "mainWindow"
          (String (Ascii.ascii_of_nat 34) " is not defined"))).

(** ['ready-to-show'], lines 138-147. *)
Definition readyToShowHandler (d : Desktop) (s : Shell) : Completion unit * Shell :=
  match mainWindow (core s) with
  | None => (Throw notDefinedError, s)
  | Some win =>
      (Normal tt, record_call win (if startMinimized d then CallMinimize else CallShow) s)
  end.

(** ['closed'], lines 149-151. *)
Definition closedHandler (s : Shell) : Shell := with_core (set_mainWindow None) s.

(** ['minimize'], lines 153-156. *)
Definition minimizeHandler (s : Shell) : Shell := on_main CallHide s.

(** ['before-quit'], lines 158-160. *)
Definition beforeQuitHandler (s : Shell) : Shell :=
  mkShell (core s) true (openWindows s) (windowCalls s) (quitCalls s) (exited s).

(** ['close'], lines 162-168: whether the default was prevented, and
    the state after. *)
Definition closeHandler (s : Shell) : bool * Shell :=
  if isQuiting s then (false, s) else (true, on_main CallHide s).

(** The window [win] has closed. *)
Definition window_closed (win : BrowserWindow) (s : Shell) : Shell :=
  closedHandler
    (mkShell (core s) (isQuiting s)
       (filter (fun x => negb (Nat.eqb x win)) (openWindows s))
       (windowCalls s) (quitCalls s) (exited s)).

(** The window [win] is asked to close. *)
Definition request_close (win : BrowserWindow) (s : Shell) : Shell :=
  let (prevented, s1) := closeHandler s in
  if prevented then s1 else window_closed win s1.

(** [app.quit()].  The ['before-quit'] handler is registered by
    [createWindow], so it is there once a window has been made. *)
Definition app_quit (s : Shell) : Shell :=
  let s1 := mkShell (core s) (isQuiting s) (openWindows s) (windowCalls s)
              (S (quitCalls s)) (exited s) in
  let s2 := if (0 <? windowsCreated (core s1))%nat then beforeQuitHandler s1 else s1 in
  let s3 := fold_left (fun s' win => request_close win s') (openWindows s2) s2 in
  match openWindows s3 with
  | [] => mkShell (core s3) (isQuiting s3) [] (windowCalls s3) (quitCalls s3) true
  | _ :: _ => s3
  end.

(** ['window-all-closed'], lines 193-199. *)
Definition windowAllClosedHandler (d : Desktop) (s : Shell) : Shell :=
  if darwin d then s else app_quit s.

Definition after_close (d : Desktop) (s : Shell) : Shell :=
  match openWindows s with
  | [] => windowAllClosedHandler d s
  | _ :: _ => s
  end.

(** [win.destroy()]. *)
Definition destroy (d : Desktop) (win : BrowserWindow) (s : Shell) : Shell :=
  after_close d (window_closed win (record_call win CallDestroy s)).

(** The click of "Quit" in the tray menu, lines 219-222. *)
Definition trayQuitHandler (d : Desktop) (s : Shell) : Shell :=
  app_quit
    (match mainWindow (core s) with
     | Some win => destroy d win s
     | None => s
     end).

(** The click on the tray icon, lines 227-229. *)
Definition trayClickHandler (s : Shell) : Shell := on_main CallShow s.

(** ['second-instance'], lines 204-210; [minimized] is the answer of
    [mainWindow.isMinimized()]. *)
Definition secondInstanceHandler (minimized : bool) (s : Shell) : Shell :=
  match mainWindow (core s) with
  | Some win =>
      record_call win CallFocus (if minimized then record_call win CallRestore s else s)
  | None => s
  end.

Inductive ShellEvent :=
| Core (e : Event)                      (* an event of the scheduler's loop *)
| ReadyToShow (win : BrowserWindow)
| CloseRequest (win : BrowserWindow)    (* the user closes the window *)
| Minimized (win : BrowserWindow)
| TrayClick
| TrayQuit
| SecondInstance (minimized : bool)
| QuitRequest.                          (* the application is asked to quit *)

(** The windows the scheduler's turn has made join the open ones. *)
Definition sync_windows (before : nat) (s : Shell) : Shell :=
  mkShell (core s) (isQuiting s)
    (openWindows s ++ seq before (windowsCreated (core s) - before))
    (windowCalls s) (quitCalls s) (exited s).

(** One turn at time [t].  Window handlers run for open windows only,
    the tray is there once the ready handler has run, and
    ['second-instance'] is listened to under the lock.  ['closed'] is no
    event of its own here: it follows a close that went through. *)
Definition shell_dispatch (env : Env) (d : Desktop) (t : Z) (ev : ShellEvent)
    (s0 : Shell) : Shell :=
  if exited s0 then s0
  else
    let s := with_core (set_now (Z.max (now (core s0)) t)) s0 in
    match ev with
    | Core WindowClosed => s
    | Core e =>
        sync_windows (windowsCreated (core s0)) (with_core (dispatch env t e) s0)
    | ReadyToShow win =>
        if is_open win s then
          match readyToShowHandler d s with
          | (Normal _, s') => s'
          | (Throw e, s') => with_core (add_unhandled e) s'
          end
        else s
    | CloseRequest win =>
        if is_open win s then
          let s1 := request_close win s in
          if is_open win s1 then s1 else after_close d s1
        else s
    | Minimized win => if is_open win s then minimizeHandler s else s
    | TrayClick =>
        match boot (core s) with Ready => trayClickHandler s | _ => s end
    | TrayQuit =>
        match boot (core s) with Ready => trayQuitHandler d s | _ => s end
    | SecondInstance minimized =>
        match boot (core s) with
        | Unregistered => s
        | _ => secondInstanceHandler minimized s
        end
    | QuitRequest => app_quit s
    end.

Fixpoint shell_run (env : Env) (d : Desktop) (trace : list (Z * ShellEvent))
    (s : Shell) : Shell :=
  match trace with
  | [] => s
  | (t, ev) :: rest => shell_run env d rest (shell_dispatch env d t ev s)
  end.

(** The newest of [n] windows. *)
Definition newest (n : nat) : option BrowserWindow :=
  match n with
  | O => None
  | S k => Some k
  end.

(** The process has ended with no window left, or it is not quitting,
    every window it has made is open and [mainWindow] is the newest. *)
Definition shell_inv (s : Shell) : Prop :=
  if exited s then openWindows s = [] /\ mainWindow (core s) = None
  else
    isQuiting s = false
    /\ openWindows s = seq 0 (windowsCreated (core s))
    /\ mainWindow (core s) = newest (windowsCreated (core s)).

(** What [app.quit()] needs to end the process: with no window open
    [mainWindow] is null, and with a window open the handler of
    ['before-quit'] is there or has run. *)
Definition quit_ready (s : Shell) : Prop :=
  (openWindows s = [] -> mainWindow (core s) = None)
  /\ (openWindows s <> [] -> (0 < windowsCreated (core s))%nat \/ isQuiting s = true).

(** Once the ready handler has run there is a main window, and the
    start-up timer is pending or has made its run. *)
Definition window_ready (w : World) : Prop :=
  boot w = Ready ->
  mainWindow w <> None /\ (timeouts w <> [] \/ getInstancesCalls w <> []).

(** No window is awaited, at most one has been made, and none before
    the ready handler has run. *)
Definition single_window (w : World) : Prop :=
  pendingCreate w = 0%nat /\ (windowsCreated w <= 1)%nat
  /\ (boot w <> Ready -> windowsCreated w = 0%nat).

(** The process once the module body has run: without the lock it has
    called [app.quit()]. *)
Definition shell_launch (env : Env) (start : Z) (tb : Tables) : Shell :=
  match launch env start tb with
  | (Normal _, w) => if gotTheLock env then shell_of w else app_quit (shell_of w)
  | (Throw _, w) => shell_of w
  end.

(** * Properties *)

(** ** Sanity checks of the model on concrete inputs *)

Example parse_quarterHourly : parse_cron "*/15 * * * *" = Some quarterHourly.
Proof. reflexivity. Qed.

Example parse_rejects_words : parse_cron "every 15 minutes" = None.
Proof. reflexivity. Qed.

Example calendar_epoch : (day_of 0, month_of 0, weekday_of 0) = (1, 1, 4).
Proof. reflexivity. Qed.

Example calendar_leap_day :
  (day_of (19782 * 86400 + 5), month_of (19782 * 86400 + 5)) = (29, 2).
Proof. reflexivity. Qed.

Example first_launch_tables :
  tables (snd (launch (mkEnv None specAssets false true) 0 (mkTables None None)))
  = mkTables (Some [defaultSettings]) (Some []).
Proof. reflexivity. Qed.

(** The scenario of section 8 of the spec. *)
Example scenario_two_fetches :
  let never := fun (_ : Z) (_ : InstanceRecord) => false in
  let a_up := mkRecord "A" "up" [] in
  let b_down := mkRecord "B" "down" [] in
  let b_up := mkRecord "B" "up" [] in
  let (cs1, st1) := reconcile never 10 [a_up; b_down] [] in
  let (cs2, st2) := reconcile never 20 [a_up; b_up] st1 in
  cs1 = mkChangeSet ["A"; "B"] [] [] [] /\
  List.length st1 = 2%nat /\
  cs2 = mkChangeSet [] ["B"] ["A"] [] /\
  keys st2 = ["A"; "B"].
Proof. vm_compute. repeat split. Qed.

(** ** The start-up block of the database *)

Lemma set_tables_same (w : World) : set_tables (tables w) w = w.
Proof. destruct w; reflexivity. Qed.

Lemma db_exec_error_keeps (q : Sql) (w : World) (e : JsError) :
  fst (db_exec q w) = inl e -> snd (db_exec q w) = w.
Proof.
  unfold db_exec. destruct (dbHandle w); try reflexivity.
  destruct q as [ine t | h x | ]; simpl.
  - destruct (table_exists t (tables w)); [destruct ine|]; simpl;
      intros H; try discriminate H; apply set_tables_same.
  - destruct (settings (tables w)); simpl; intros H; try discriminate H.
    apply set_tables_same.
  - destruct (settings (tables w)); simpl; intros H; try discriminate H.
    apply set_tables_same.
Qed.

(** C9. When the start-up [SELECT * FROM settings] reports an error, the
    callback logs the message of the error and goes on: it reads
    [rows.length] of an undefined [rows] and throws a TypeError.  The
    error branch does not end the callback, nothing is inserted, and
    the TypeError reaches no handler. *)
Theorem settings_read_error_not_terminal (e : JsError) (w : World)
    (Herr : fst (db_exec SelectSettings w) = inl e) :
  settingsCallback (Some e) None w
    = (Throw typeErrorLength, add_console (ConsoleError [message e]) w)
  /\ ensureSettings w
    = (Normal tt,
       add_unhandled typeErrorLength (add_console (ConsoleError [message e]) w))
  /\ tables (snd (ensureSettings w)) = tables w.
Proof.
  assert (Hcb : settingsCallback (Some e) None w
                = (Throw typeErrorLength, add_console (ConsoleError [message e]) w))
    by reflexivity.
  assert (Hens : ensureSettings w
                 = (Normal tt,
                    add_unhandled typeErrorLength
                      (add_console (ConsoleError [message e]) w))).
  { unfold ensureSettings, db_all.
    pose proof (db_exec_error_keeps SelectSettings w e Herr) as Hw.
    destruct (db_exec SelectSettings w) as [[e' | rows] w']; simpl in *.
    - injection Herr as ->. subst w'. unfold isolated. rewrite Hcb. reflexivity.
    - discriminate Herr. }
  repeat split; try assumption.
  rewrite Hens. reflexivity.
Qed.

Lemma settings_read_error_not_terminal_witness :
  let w := pristine 0 (mkTables None None) in
  unhandled (snd (ensureSettings w)) = [typeErrorLength].
Proof.
  intros w.
  destruct (settings_read_error_not_terminal
              closedError w eq_refl)
    as [_ [H _]].
  rewrite H. reflexivity.
Defined.

Lemma ensureSettings_empty (w : World) :
  dbHandle w = Opened -> settings (tables w) = Some [] ->
  fst (ensureSettings w) = Normal tt /\
  tables (snd (ensureSettings w)) = mkTables (Some [defaultSettings]) (instances (tables w)) /\
  boot (snd (ensureSettings w)) = boot w.
Proof.
  destruct w as [c u h [s i] n m wc pc b ts ct gc r]; simpl.
  intros -> ->. repeat split.
Qed.

Lemma ensureSettings_nonempty (w : World) (r : SettingsRow) (rs : list SettingsRow) :
  dbHandle w = Opened -> settings (tables w) = Some (r :: rs) ->
  ensureSettings w = (Normal tt, w).
Proof.
  destruct w as [c u h [s i] n m wc pc b ts ct gc rn]; simpl.
  intros -> ->. reflexivity.
Qed.

Lemma launch_after_schema (env : Env) (start : Z) (tb : Tables) (w1 : World) :
  (openDatabase env ;; createSchema env) (pristine start tb) = (Normal tt, w1) ->
  tables (snd (launch env start tb)) = tables (snd (ensureSettings w1)).
Proof.
  unfold launch, main, serializeBlock, bind. intros H.
  destruct (openDatabase env (pristine start tb)) as [[[]|e0] w0]; [|discriminate H].
  rewrite H.
  destruct (ensureSettings w1) as [[[]|e1] w2]; simpl; [|reflexivity].
  destruct (gotTheLock env); reflexivity.
Qed.

(** C1. In a launch whose settings table is empty once the schema
    files have run (and whose handle is open, so that the SELECT reads
    the table), the start-up block inserts exactly one row, with
    hostname "localhost" and extractMsi 0, that is, false; in a launch
    whose settings table already holds a row it inserts nothing.  So a
    first run leaves exactly one settings row. *)
Theorem settings_created_once (env : Env) (start : Z) (tb : Tables) (w1 : World)
    (Hschema : (openDatabase env ;; createSchema env) (pristine start tb) = (Normal tt, w1))
    (Hopen : dbHandle w1 = Opened) :
  (settings (tables w1) = Some [] ->
     tables (snd (launch env start tb))
       = mkTables (Some [defaultSettings]) (instances (tables w1))
     /\ hostname defaultSettings = "localhost"
     /\ flag (extractMsi defaultSettings) = false)
  /\ (forall r rs, settings (tables w1) = Some (r :: rs) ->
        tables (snd (launch env start tb)) = tables w1).
Proof.
  pose proof (launch_after_schema env start tb w1 Hschema) as Hl.
  split.
  - intros Hempty. rewrite Hl.
    destruct (ensureSettings_empty w1 Hopen Hempty) as [_ [Ht _]].
    rewrite Ht. repeat split.
  - intros r rs Hrows. rewrite Hl.
    rewrite (ensureSettings_nonempty w1 r rs Hopen Hrows). reflexivity.
Qed.

Lemma settings_created_once_witness :
  tables (snd (launch (mkEnv None specAssets false true) 0 (mkTables None None)))
  = mkTables (Some [defaultSettings]) (Some []).
Proof.
  pose (env := mkEnv None specAssets false true).
  pose (w1 := snd ((openDatabase env ;; createSchema env) (pristine 0 (mkTables None None)))).
  destruct (settings_created_once env 0 (mkTables None None) w1 eq_refl eq_refl)
    as [Hfirst _].
  destruct (Hfirst eq_refl) as [Ht _].
  exact Ht.
Defined.

Lemma createSchema_present (dev lock : bool) (w : World) :
  dbHandle w = Opened ->
  table_exists TSettings (tables w) = true ->
  table_exists TInstances (tables w) = true ->
  createSchema (mkEnv None specAssets dev lock) w = (Normal tt, w).
Proof.
  destruct w as [c u h [[s|] [i|]] n m wc pc b ts ct gc rn]; simpl;
    intros -> Hs Hi; try discriminate Hs; try discriminate Hi.
  reflexivity.
Qed.

(** C6. With the schema files as the spec describes them (CREATE TABLE
    IF NOT EXISTS), the schema-creation step changes nothing in a store
    that already has both tables, and launching over the store a launch
    has left leaves that store as it is: initializing twice gives the
    store of initializing once. *)
Theorem initialize_idempotent (dev lock : bool) (w : World)
    (Hopen : dbHandle w = Opened)
    (Hsettings : table_exists TSettings (tables w) = true)
    (Hinstances : table_exists TInstances (tables w) = true) :
  let env := mkEnv None specAssets dev lock in
  createSchema env w = (Normal tt, w)
  /\ (forall start start' tb,
        tables (snd (launch env start' (tables (snd (launch env start tb)))))
        = tables (snd (launch env start tb))).
Proof.
  intros env. split.
  - apply createSchema_present; assumption.
  - intros start start' tb.
    destruct tb as [[[|r rs]|] [inst|]], lock; reflexivity.
Qed.

Lemma initialize_idempotent_witness :
  let env := mkEnv None specAssets false true in
  let w := set_dbHandle Opened (pristine 0 (mkTables (Some [defaultSettings]) (Some []))) in
  createSchema env w = (Normal tt, w).
Proof.
  intros env w.
  exact (proj1 (initialize_idempotent false true w eq_refl eq_refl eq_refl)).
Defined.

(** ** The cron expression of [StartTasks] *)

Lemma quarterHourly_match (s : Z) :
  cron_match quarterHourly s = true <-> s mod 900 = 0.
Proof.
  unfold cron_match, quarterHourly, field_match, second_of, minute_of; simpl.
  rewrite !andb_true_r, andb_true_iff, !Z.eqb_eq.
  split.
  - intros [H1 H2]. Z.div_mod_to_equations. lia.
  - intros H.
    assert (Hs : s = 15 * (s / 900) * 60) by (pose proof (Z.div_mod s 900); lia).
    revert Hs. generalize (s / 900). intros k ->. split.
    + apply Z_mod_mult.
    + rewrite Z_div_mult by lia.
      rewrite Z.mod_mod_divide by (exists 4; reflexivity).
      rewrite Z.mul_comm. apply Z_mod_mult.
Qed.







(** ** The scheduler *)

Lemma cron_fold (due : list CronTask) (w : World) :
  fold_left (fun w' t => isolated (cronCallback (task_window t)) w') due w
  = mkWorld (console w) (unhandled w) (dbHandle w) (tables w) (now w)
      (mainWindow w) (windowsCreated w) (pendingCreate w) (boot w)
      (timeouts w) (cronTasks w)
      (getInstancesCalls w
         ++ map (fun t => mkCall (now w) Scheduled (task_window t)) due)
      (List.length due + running w).
Proof.
  revert w. induction due as [|t due IH]; intros w; simpl.
  - rewrite app_nil_r. destruct w; reflexivity.
  - rewrite IH. unfold isolated, cronCallback, GetInstances, add_call; simpl.
    rewrite <- app_assoc. simpl. f_equal. apply Nat.add_succ_r.
Qed.

(** C2 (as the code has it). A clock check runs [GetInstances] once
    for every armed task that is due, whether or not earlier runs are
    still going: the calls grow by one per due task and so does the
    number of runs in progress.  Nothing in main.ts looks at the runs
    in progress. *)
Theorem tick_always_starts_a_run (env : Env) (t : Z) (w : World) :
  let at_ms := Z.max (now w) t in
  let due := filter (fires (second_at at_ms)) (cronTasks w) in
  let w' := dispatch env t CronClock w in
  getInstancesCalls w'
    = getInstancesCalls w ++ map (fun k => mkCall at_ms Scheduled (task_window k)) due
  /\ running w' = (List.length due + running w)%nat.
Proof.
  simpl. unfold cronClock. rewrite cron_fold. simpl. split; reflexivity.
Qed.

(** The claim of C2 read on the code: the first run is still going
    when the clock reaches 0:15:00; the tick starts a second run. *)
Lemma tick_while_running_starts_second_run :
  let env := mkEnv None specAssets false true in
  let busy := run env [(1000, AppReady); (6000, TimerFires)]
                (snd (launch env 0 (mkTables None None))) in
  let after := dispatch env 900000 CronClock busy in
  running busy = 1%nat
  /\ running after = 2%nat
  /\ getInstancesCalls after
     = [mkCall 6000 Initial 0%nat; mkCall 900000 Scheduled 0%nat].
Proof. repeat split. Qed.

Lemma startupTimer_window (w : World) (win : BrowserWindow) :
  mainWindow w = Some win ->
  isolated startupTimerCallback w
  = mkWorld (console w ++ [ConsoleLog ["Starting tasks"]]) (unhandled w)
      (dbHandle w) (tables w) (now w) (mainWindow w) (windowsCreated w)
      (pendingCreate w) (boot w) (timeouts w)
      (cronTasks w ++ [mkTask quarterHourly win (second_at (now w))])
      (getInstancesCalls w ++ [mkCall (now w) Initial win])
      (S (running w)).
Proof.
  intros H. unfold isolated, startupTimerCallback.
  replace (match mainWindow w with
           | Some win0 => StartTasks win0 w
           | None => (Normal tt, w)
           end) with (StartTasks win w) by (rewrite H; reflexivity).
  reflexivity.
Qed.

Lemma startupTimer_no_window (w : World) :
  mainWindow w = None -> isolated startupTimerCallback w = w.
Proof.
  intros H. unfold isolated, startupTimerCallback. rewrite H. reflexivity.
Qed.

Lemma timers_fold_no_window (due : list Z) (w : World) :
  mainWindow w = None ->
  fold_left (fun w' (_ : Z) => isolated startupTimerCallback w') due w = w.
Proof.
  intros H. induction due as [|d due IH]; simpl; [reflexivity|].
  rewrite (startupTimer_no_window w H). exact IH.
Qed.







Lemma dispatch_dormant (env : Env) (t : Z) (e : Event) (w : World) :
  dormant w -> dormant (dispatch env t e w).
Proof.
  unfold dormant. intros (Hb & Ht & Hc & Hg).
  destruct e; unfold dispatch.
  - cbn [boot set_now]. destruct (boot w) eqn:Hb'; cbn; rewrite ?Hb'; try congruence;
      repeat split; try assumption; discriminate.
  - cbn [pendingCreate set_now]. destruct (pendingCreate w); cbn;
      repeat split; assumption.
  - cbn. repeat split; assumption.
  - cbn [boot set_now]. destruct (boot w) eqn:Hb'; cbn; rewrite ?Hb';
      repeat split; try assumption; try discriminate.
    + unfold isolated, activateHandler, createWindow; cbn.
      destruct (mainWindow w), (isDevelopment env); cbn; rewrite Hb'; discriminate.
    + unfold isolated, activateHandler, createWindow; cbn.
      destruct (mainWindow w), (isDevelopment env); cbn; assumption.
    + unfold isolated, activateHandler, createWindow; cbn.
      destruct (mainWindow w), (isDevelopment env); cbn; assumption.
    + unfold isolated, activateHandler, createWindow; cbn.
      destruct (mainWindow w), (isDevelopment env); cbn; assumption.
  - unfold runTimers. cbn [timeouts set_now]. rewrite Ht. cbn.
    repeat split; assumption.
  - unfold cronClock. cbn [cronTasks set_now]. rewrite Hc. cbn.
    repeat split; assumption.
  - cbn. repeat split; assumption.
Qed.

Lemma run_dormant (env : Env) (trace : list (Z * Event)) (w : World) :
  dormant w -> dormant (run env trace w).
Proof.
  revert w. induction trace as [|[t e] trace IH]; intros w H; simpl; [exact H|].
  apply IH. apply dispatch_dormant. exact H.
Qed.

Lemma runTimers_single_early (w : World) (d : Z) :
  timeouts w = [d] -> now w < d ->
  getInstancesCalls (runTimers w) = getInstancesCalls w
  /\ cronTasks (runTimers w) = cronTasks w
  /\ timeouts (runTimers w) = [d].
Proof.
  intros Ht Hlt. unfold runTimers. rewrite Ht. cbn [filter].
  replace (d <=? now w) with false by (symmetry; apply Z.leb_gt; exact Hlt).
  cbn. repeat split.
Qed.

Lemma runTimers_single_due (w : World) (d : Z) (win : BrowserWindow) :
  timeouts w = [d] -> d <= now w -> mainWindow w = Some win ->
  getInstancesCalls (runTimers w) = getInstancesCalls w ++ [mkCall (now w) Initial win]
  /\ cronTasks (runTimers w)
     = cronTasks w ++ [mkTask quarterHourly win (second_at (now w))]
  /\ timeouts (runTimers w) = []
  /\ running (runTimers w) = S (running w).
Proof.
  intros Ht Hle Hwin. unfold runTimers. rewrite Ht. cbn [filter].
  replace (d <=? now w) with true by (symmetry; apply Z.leb_le; exact Hle).
  cbn [negb fold_left].
  rewrite (startupTimer_window (set_timeouts [] w) win Hwin). cbn. repeat split.
Qed.

Lemma runTimers_no_window (w : World) :
  mainWindow w = None ->
  runTimers w = set_timeouts (filter (fun d => negb (d <=? now w)) (timeouts w)) w.
Proof.
  intros H. unfold runTimers. apply timers_fold_no_window. exact H.
Qed.

Lemma all_due_none_left (l : list Z) (n : Z) :
  Forall (fun d => d <= n) l -> filter (fun d => negb (d <=? n)) l = [].
Proof.
  induction 1 as [|d l Hd _ IH]; simpl; [reflexivity|].
  replace (d <=? n) with true by (symmetry; apply Z.leb_le; exact Hd).
  exact IH.
Qed.

(** Apart from the timers, no turn of the loop starts the pipeline
    while no schedule is armed. *)
Lemma other_events_start_nothing (env : Env) (t : Z) (e : Event) (w : World) :
  e <> TimerFires -> cronTasks w = [] ->
  getInstancesCalls (dispatch env t e w) = getInstancesCalls w
  /\ cronTasks (dispatch env t e w) = [].
Proof.
  intros He Hc. destruct e; unfold dispatch; try congruence.
  - cbn [boot set_now]. destruct (boot w); cbn; try (split; [reflexivity|assumption]).
    unfold isolated, whenReadyHandler, createWindow, bind.
    destruct (isDevelopment env); cbn; split; [reflexivity|assumption| |]; trivial.
  - cbn [pendingCreate set_now]. destruct (pendingCreate w); cbn;
      split; trivial.
  - cbn. split; trivial.
  - cbn [boot set_now]. destruct (boot w); cbn; try (split; [reflexivity|assumption]).
    unfold isolated, activateHandler, createWindow; cbn.
    destruct (mainWindow w), (isDevelopment env); cbn; split; trivial.
  - unfold cronClock. cbn [cronTasks set_now]. rewrite Hc. cbn. split; trivial.
  - cbn. split; trivial.
Qed.

(** C10. While no schedule is armed, the only turn of the loop that
    starts the pipeline is the firing of a due start-up timer with a
    main window that is not null; with a window, that turn makes the
    initial run and arms the quarter-hourly schedule; with a null
    window at that moment, and the ready handler run, no run is ever
    made and no schedule is ever armed, whatever happens later. *)
Theorem pipeline_needs_window (env : Env) (w : World) (t : Z)
    (Htasks : cronTasks w = []) :
  (forall e,
      getInstancesCalls (dispatch env t e w) <> getInstancesCalls w
      \/ cronTasks (dispatch env t e w) <> [] ->
      e = TimerFires /\ mainWindow w <> None
      /\ exists d, In d (timeouts w) /\ d <= Z.max (now w) t)
  /\ (forall d win,
        timeouts w = [d] -> d <= Z.max (now w) t -> mainWindow w = Some win ->
        getInstancesCalls (dispatch env t TimerFires w)
          = getInstancesCalls w ++ [mkCall (Z.max (now w) t) Initial win]
        /\ cronTasks (dispatch env t TimerFires w)
          = [mkTask quarterHourly win (second_at (Z.max (now w) t))])
  /\ (mainWindow w = None -> boot w = Ready -> getInstancesCalls w = [] ->
      Forall (fun d => d <= Z.max (now w) t) (timeouts w) ->
      forall trace,
        getInstancesCalls (run env trace (dispatch env t TimerFires w)) = []
        /\ cronTasks (run env trace (dispatch env t TimerFires w)) = []).
Proof.
  split; [|split].
  - intros e Hstart.
    assert (He : e = TimerFires).
    { destruct e; try reflexivity;
        match goal with
        | |- ?ev = _ =>
            destruct (other_events_start_nothing env t ev w) as [Hg Hc];
              [discriminate | exact Htasks | ];
              destruct Hstart as [Hs | Hs]; contradiction
        end. }
    subst e. split; [reflexivity|].
    unfold dispatch in Hstart.
    set (w1 := set_now (Z.max (now w) t) w) in *.
    destruct (mainWindow w) as [win|] eqn:Hwin.
    + split; [discriminate|].
      destruct (filter (fun d => d <=? now w1) (timeouts w1)) as [|d due] eqn:Hdue.
      * exfalso. unfold runTimers in Hstart. rewrite Hdue in Hstart. cbn in Hstart.
        destruct Hstart as [Hs | Hs]; [apply Hs; reflexivity | apply Hs; exact Htasks].
      * exists d.
        assert (Hin : In d (filter (fun d => d <=? now w1) (timeouts w1)))
          by (rewrite Hdue; left; reflexivity).
        apply filter_In in Hin. destruct Hin as [Hin Hle].
        split; [exact Hin | apply Z.leb_le; exact Hle].
    + exfalso. rewrite (runTimers_no_window w1 Hwin) in Hstart. cbn in Hstart.
      destruct Hstart as [Hs | Hs]; [apply Hs; reflexivity | apply Hs; exact Htasks].
  - intros d win Ht Hle Hwin. unfold dispatch.
    destruct (runTimers_single_due (set_now (Z.max (now w) t) w) d win Ht Hle Hwin)
      as (Hg & Hc & _).
    rewrite Hg, Hc. cbn. rewrite Htasks. split; reflexivity.
  - intros Hwin Hboot Hcalls Hdue trace.
    assert (Hd : dormant (dispatch env t TimerFires w)).
    { unfold dispatch.
      rewrite (runTimers_no_window (set_now (Z.max (now w) t) w) Hwin).
      cbn [now timeouts set_now].
      rewrite (all_due_none_left _ _ Hdue). unfold dormant. cbn.
      rewrite Hboot. repeat split; try assumption. discriminate. }
    destruct (run_dormant env trace _ Hd) as (_ & _ & Hc & Hg).
    split; assumption.
Qed.

Lemma pipeline_needs_window_witness :
  let env := mkEnv None specAssets true true in
  let w := run env [(1000, AppReady)] (snd (launch env 0 (mkTables None None))) in
  mainWindow w = None
  /\ getInstancesCalls
       (run env [(9000, ExtensionsInstalled); (900000, CronClock)]
          (dispatch env 6000 TimerFires w)) = [].
Proof.
  intros env w. split; [reflexivity|].
  assert (H1 : cronTasks w = []) by (vm_compute; reflexivity).
  assert (H2 : mainWindow w = None) by (vm_compute; reflexivity).
  assert (H3 : boot w = Ready) by (vm_compute; reflexivity).
  assert (H4 : getInstancesCalls w = []) by (vm_compute; reflexivity).
  assert (H5 : Forall (fun d => d <= Z.max (now w) 6000) (timeouts w)).
  { vm_compute. repeat constructor. discriminate. }
  destruct (pipeline_needs_window env w 6000 H1) as (_ & _ & Hnever).
  exact (proj1 (Hnever H2 H3 H4 H5 _)).
Defined.




(** ** Failures of the storage at start-up *)

Lemma launch_open_failed (env : Env) (start : Z) (tb : Tables)
    (e : JsError) (q1 q2 : Sql) :
  openError env = Some e ->
  assets env "sql/create-settings.sql" = Some q1 ->
  assets env "sql/create-instances.sql" = Some q2 ->
  launch env start tb
  = (Normal tt,
     mkWorld [ConsoleError ["Database opening error: "; message e];
              ConsoleError [message closedError]]
       [closedError; closedError; typeErrorLength]
       OpenFailed tb start None 0 0
       (if gotTheLock env then AwaitingReady else Unregistered) [] [] [] 0).
Proof.
  intros Ho H1 H2.
  unfold launch, main, openDatabase, serializeBlock, createSchema, readFileSync, bind.
  rewrite Ho, H1, H2. cbn.
  destruct (gotTheLock env); reflexivity.
Qed.

Lemma db_run_normal (q : Sql) (w : World) :
  exists w', db_run q w = (Normal tt, w') /\ (dormant w -> dormant w').
Proof.
  unfold db_run, db_exec, dormant.
  destruct (dbHandle w); try destruct (exec q (tables w)) as [[e|rows] tb'];
    eexists; (split; [reflexivity | cbn; tauto]).
Qed.

Lemma openDatabase_normal (env : Env) (start : Z) (tb : Tables) :
  exists w', openDatabase env (pristine start tb) = (Normal tt, w') /\ dormant w'.
Proof.
  unfold openDatabase, dormant.
  destruct (openError env); eexists; (split; [reflexivity|]); cbn;
    repeat split; discriminate.
Qed.

Lemma launch_schema_unreadable (env : Env) (start : Z) (tb : Tables) :
  assets env "sql/create-settings.sql" = None
  \/ assets env "sql/create-instances.sql" = None ->
  exists e w, launch env start tb = (Throw e, w) /\ dormant w.
Proof.
  intros Hmissing.
  destruct (openDatabase_normal env start tb) as (w0 & Hopen & Hw0).
  unfold launch, main, serializeBlock, createSchema, bind. rewrite Hopen.
  unfold readFileSync.
  destruct (assets env "sql/create-settings.sql") as [q1|].
  - destruct Hmissing as [Hm | Hm]; [discriminate Hm|]. rewrite Hm.
    destruct (db_run_normal q1 w0) as (w1 & Hrun & Hw1).
    unfold ret, throw. rewrite Hrun.
    eexists. eexists. split; [reflexivity | exact (Hw1 Hw0)].
  - unfold throw. eexists. eexists. split; [reflexivity | exact Hw0].
Qed.

Lemma ready_step (env : Env) (r : Z) (w : World) :
  boot w = AwaitingReady -> isDevelopment env = false ->
  timeouts (dispatch env r AppReady w) = timeouts w ++ [Z.max (now w) r + startupDelay]
  /\ mainWindow (dispatch env r AppReady w) = Some (windowsCreated w)
  /\ now (dispatch env r AppReady w) = Z.max (now w) r
  /\ getInstancesCalls (dispatch env r AppReady w) = getInstancesCalls w.
Proof.
  intros Hb Hprod. unfold dispatch. cbn [boot set_now]. rewrite Hb.
  unfold isolated, whenReadyHandler, createWindow, bind. rewrite Hprod.
  cbn. repeat split.
Qed.

(** C5 (as the code has it). When the database cannot be opened and
    the schema files are readable, the module body completes: the open
    callback writes the error to the console, the file is left as it
    was, the ready handler is registered all the same, and with a
    window the start-up timer runs [GetInstances].  When a schema file
    is unreadable the module body throws before it registers anything,
    and no run is ever made. *)
Theorem storage_failure_paths (env : Env) (start : Z) (tb : Tables) :
  (forall e q1 q2,
      openError env = Some e ->
      assets env "sql/create-settings.sql" = Some q1 ->
      assets env "sql/create-instances.sql" = Some q2 ->
      let w := snd (launch env start tb) in
      fst (launch env start tb) = Normal tt
      /\ hd_error (console w) = Some (ConsoleError ["Database opening error: "; message e])
      /\ tables w = tb
      /\ (gotTheLock env = true -> isDevelopment env = false ->
          forall r t, Z.max start r + startupDelay <= t ->
            getInstancesCalls (run env [(r, AppReady); (t, TimerFires)] w)
            = [mkCall t Initial 0%nat]))
  /\ (assets env "sql/create-settings.sql" = None
      \/ assets env "sql/create-instances.sql" = None ->
      exists e,
        fst (launch env start tb) = Throw e
        /\ forall trace,
             getInstancesCalls (run env trace (snd (launch env start tb))) = []
             /\ cronTasks (run env trace (snd (launch env start tb))) = []).
Proof.
  split.
  - intros e q1 q2 Ho H1 H2 w. unfold w.
    rewrite (launch_open_failed env start tb e q1 q2 Ho H1 H2). cbn [fst snd].
    repeat split.
    intros Hlock Hprod r t Hle. rewrite Hlock. cbn [run].
    match goal with
    | |- getInstancesCalls (dispatch env t TimerFires (dispatch env r AppReady ?w0)) = _ =>
        destruct (ready_step env r w0 eq_refl Hprod) as (Ht & Hwin & Hnow & Hcalls);
        set (w1 := dispatch env r AppReady w0) in *
    end.
    cbn in Ht, Hwin, Hnow, Hcalls.
    unfold dispatch.
    destruct (runTimers_single_due (set_now (Z.max (now w1) t) w1)
                (Z.max start r + startupDelay) 0%nat) as (Hg & _).
    + exact Ht.
    + cbn. rewrite Hnow. cbn. lia.
    + exact Hwin.
    + rewrite Hg. cbn. rewrite Hcalls, Hnow. cbn.
      replace (Z.max (Z.max start r) t) with t by (unfold startupDelay in Hle; lia).
      reflexivity.
  - intros Hmissing.
    destruct (launch_schema_unreadable env start tb Hmissing) as (e & w & Hl & Hd).
    exists e. rewrite Hl. cbn [fst snd]. split; [reflexivity|].
    intros trace. destruct (run_dormant env trace w Hd) as (_ & _ & Hc & Hg).
    split; assumption.
Qed.

Lemma storage_failure_paths_witness :
  let cantopen := sqliteError "SQLITE_CANTOPEN: unable to open database file" in
  let env := mkEnv (Some cantopen) specAssets false true in
  getInstancesCalls
    (run env [(1000, AppReady); (6000, TimerFires)]
       (snd (launch env 0 (mkTables None None))))
  = [mkCall 6000 Initial 0%nat].
Proof.
  intros cantopen env.
  destruct (storage_failure_paths env 0 (mkTables None None)) as [Hopen _].
  destruct (Hopen cantopen (CreateTable true TSettings) (CreateTable true TInstances)
              eq_refl eq_refl eq_refl) as (_ & _ & _ & Hrun).
  apply (Hrun eq_refl eq_refl 1000 6000). vm_compute. discriminate.
Defined.

(** The claim of C5 read on the code: the database cannot be opened;
    the module body completes without throwing, the console gets a
    line, and six seconds later the pipeline runs. *)
Lemma open_failure_is_logged_and_startup_goes_on :
  let cantopen := sqliteError "SQLITE_CANTOPEN: unable to open database file" in
  let env := mkEnv (Some cantopen) specAssets false true in
  let w := snd (launch env 0 (mkTables None None)) in
  fst (launch env 0 (mkTables None None)) = Normal tt
  /\ hd_error (console w)
     = Some (ConsoleError ["Database opening error: "; message cantopen])
  /\ boot w = AwaitingReady
  /\ getInstancesCalls (run env [(1000, AppReady); (6000, TimerFires)] w)
     = [mkCall 6000 Initial 0%nat].
Proof. repeat split. Qed.

(** ** The reconciler *)

Lemma metadata_eqb_refl (m : list (string * string)) : metadata_eqb m m = true.
Proof.
  induction m as [|[k v] m IH]; simpl; [reflexivity|].
  rewrite !String.eqb_refl. exact IH.
Qed.

Lemma same_attributes_row_of (t : Z) (r : InstanceRecord) :
  same_attributes r (row_of t r) = true.
Proof.
  unfold same_attributes, row_of; simpl.
  rewrite String.eqb_refl, metadata_eqb_refl. reflexivity.
Qed.

Lemma has_id_row_of (t : Z) (r : InstanceRecord) : has_id (rec_id r) (row_of t r) = true.
Proof. unfold has_id, row_of; simpl. apply String.eqb_refl. Qed.

Lemma lookup_none_not_key (id : string) (st : Store) :
  lookupInstance id st = None -> ~ In id (keys st).
Proof.
  unfold lookupInstance, keys. intros Hnone Hin.
  apply in_map_iff in Hin. destruct Hin as (row & Hid & Hin).
  pose proof (find_none _ _ Hnone row Hin) as Hf.
  unfold has_id in Hf. rewrite Hid, String.eqb_refl in Hf. discriminate Hf.
Qed.

Lemma lookup_appended (id : string) (st : Store) (row : InstanceRow) :
  lookupInstance id st = None -> has_id id row = true ->
  lookupInstance id (st ++ [row]) = Some row.
Proof.
  unfold lookupInstance. intros Hnone Hrow.
  induction st as [|x st IH]; simpl in *.
  - rewrite Hrow. reflexivity.
  - destruct (has_id id x); [discriminate Hnone | apply IH; exact Hnone].
Qed.

Lemma lookup_replaced (id : string) (st : Store) (old new : InstanceRow) :
  lookupInstance id st = Some old -> has_id id new = true ->
  lookupInstance id (map (fun row => if has_id id row then new else row) st) = Some new.
Proof.
  unfold lookupInstance. intros Hsome Hnew.
  induction st as [|x st IH]; simpl in *; [discriminate Hsome|].
  destruct (has_id id x) eqn:Hx.
  - rewrite Hnew. reflexivity.
  - rewrite Hx. apply IH. exact Hsome.
Qed.

Lemma keys_replaced (r : InstanceRecord) (t : Z) (st : Store) :
  keys (map (fun row => if has_id (rec_id r) row then row_of t r else row) st) = keys st.
Proof.
  unfold keys. induction st as [|x st IH]; simpl; [reflexivity|].
  rewrite IH. destruct (has_id (rec_id r) x) eqn:Hx; [|reflexivity].
  simpl. unfold has_id in Hx. apply String.eqb_eq in Hx. rewrite Hx. reflexivity.
Qed.

Lemma unique_snoc {A} (l : list A) (a : A) :
  NoDup l -> ~ In a l -> NoDup (l ++ [a]).
Proof.
  induction l as [|x l IH]; simpl; intros Hu Hn.
  - constructor; [intros []|constructor].
  - inversion Hu as [|y ys Hx Hl]; subst. constructor.
    + intros Hin. apply in_app_or in Hin. destruct Hin as [Hin | [Heq | []]].
      * exact (Hx Hin).
      * apply Hn. left. symmetry. exact Heq.
    + apply IH; [exact Hl|]. intros Hin. apply Hn. right. exact Hin.
Qed.

Section ReconcilerFacts.

Variable write_fails : Z -> InstanceRecord -> bool.

Lemma upsert_then_lookup (t : Z) (r : InstanceRecord) (st st' : Store) (u : Upsert) :
  upsertInstance write_fails t r st = inr (u, st') ->
  lookupInstance (rec_id r) st' = Some (row_of t r).
Proof.
  unfold upsertInstance. destruct (write_fails t r); [discriminate|].
  destruct (lookupInstance (rec_id r) st) as [old|] eqn:Hl; intros H;
    injection H as _ <-.
  - apply (lookup_replaced _ _ old); [exact Hl | apply has_id_row_of].
  - apply lookup_appended; [exact Hl | apply has_id_row_of].
Qed.

Lemma upsert_keeps_unique (t : Z) (r : InstanceRecord) (st st' : Store) (u : Upsert) :
  upsertInstance write_fails t r st = inr (u, st') ->
  NoDup (keys st) -> NoDup (keys st').
Proof.
  unfold upsertInstance. destruct (write_fails t r); [discriminate|].
  destruct (lookupInstance (rec_id r) st) as [old|] eqn:Hl; intros H Hu;
    injection H as _ <-.
  - rewrite keys_replaced. exact Hu.
  - unfold keys. rewrite map_app. simpl.
    apply unique_snoc; [exact Hu | apply lookup_none_not_key; exact Hl].
Qed.

Lemma reconcileRecord_unique (t : Z) (r : InstanceRecord) (acc : ChangeSet * Store) :
  NoDup (keys (snd acc)) -> NoDup (keys (snd (reconcileRecord write_fails t r acc))).
Proof.
  destruct acc as [cs st]. unfold reconcileRecord. simpl. intros Hu.
  destruct (lookupInstance (rec_id r) st) as [row|].
  - destruct (same_attributes r row); [exact Hu|].
    destruct (upsertInstance write_fails t r st) as [e|[u st']] eqn:Hup; simpl;
      [exact Hu | exact (upsert_keeps_unique t r st st' u Hup Hu)].
  - destruct (upsertInstance write_fails t r st) as [e|[u st']] eqn:Hup; simpl;
      [exact Hu | exact (upsert_keeps_unique t r st st' u Hup Hu)].
Qed.

Lemma reconcile_fold_unique (t : Z) (fetched : list InstanceRecord)
    (acc : ChangeSet * Store) :
  NoDup (keys (snd acc)) ->
  NoDup (keys (snd (fold_left (fun a r => reconcileRecord write_fails t r a) fetched acc))).
Proof.
  revert acc. induction fetched as [|r fetched IH]; intros acc Hu; simpl; [exact Hu|].
  apply IH. apply reconcileRecord_unique. exact Hu.
Qed.

Lemma reconcileAll_unique (fetches : list (Z * list InstanceRecord)) (st : Store) :
  NoDup (keys st) -> NoDup (keys (reconcileAll write_fails fetches st)).
Proof.
  unfold reconcileAll. revert st.
  induction fetches as [|[t fetched] fetches IH]; intros st Hu; simpl; [exact Hu|].
  apply IH. unfold reconcile. apply reconcile_fold_unique. exact Hu.
Qed.

Lemma unique_key_one_row (id : string) (st : Store) :
  NoDup (keys st) -> In id (keys st) -> List.length (filter (has_id id) st) = 1%nat.
Proof.
  unfold keys. induction st as [|x st IH]; simpl; intros Hu Hin; [contradiction|].
  inversion Hu as [|k ks Hnotin Hu']; subst.
  unfold has_id at 1. destruct (String.eqb_spec (row_id x) id) as [Heq | Hne].
  - simpl. f_equal. subst id.
    assert (Hnone : forall l, ~ In (row_id x) (map row_id l) ->
                              filter (has_id (row_id x)) l = []).
    { induction l as [|y l IHl]; simpl; intros Hn; [reflexivity|].
      unfold has_id at 1. destruct (String.eqb_spec (row_id y) (row_id x)) as [E|E].
      - exfalso. apply Hn. left. exact E.
      - apply IHl. intros Hin'. apply Hn. right. exact Hin'. }
    rewrite (Hnone st Hnotin). reflexivity.
  - destruct Hin as [Hin | Hin]; [contradiction|]. apply IH; assumption.
Qed.

Lemma reconcile_present_same (t : Z) (r : InstanceRecord) (st : Store) (row : InstanceRow) :
  lookupInstance (rec_id r) st = Some row -> same_attributes r row = true ->
  reconcile write_fails t [r] st = (mkChangeSet [] [] [rec_id r] [], st).
Proof.
  intros Hl Hs. unfold reconcile, reconcileRecord. simpl. rewrite Hl, Hs. reflexivity.
Qed.

Lemma reconcile_leaves_record (t0 : Z) (r : InstanceRecord) (st0 : Store) :
  write_fails t0 r = false ->
  exists row1,
    lookupInstance (rec_id r) (snd (reconcile write_fails t0 [r] st0)) = Some row1
    /\ same_attributes r row1 = true.
Proof.
  intros Hok.
  assert (Hup : exists u st1, upsertInstance write_fails t0 r st0 = inr (u, st1)).
  { unfold upsertInstance. rewrite Hok.
    destruct (lookupInstance (rec_id r) st0); eexists; eexists; reflexivity. }
  destruct Hup as (u & st1 & Hu).
  unfold reconcile, reconcileRecord. simpl.
  destruct (lookupInstance (rec_id r) st0) as [row0|] eqn:Hl0.
  - destruct (same_attributes r row0) eqn:Hs0; simpl.
    + exists row0. split; assumption.
    + rewrite Hu. simpl. exists (row_of t0 r).
      split; [exact (upsert_then_lookup t0 r st0 st1 u Hu) | apply same_attributes_row_of].
  - rewrite Hu. simpl. exists (row_of t0 r).
    split; [exact (upsert_then_lookup t0 r st0 st1 u Hu) | apply same_attributes_row_of].
Qed.

(** C7. A fetched record that is stored with the same status and
    metadata is classified as unchanged and the store is left as it
    is; and whatever the store was, once a record has been reconciled
    with no write failure, reconciling it again gives unchanged and
    writes nothing. *)
Theorem reconcile_unchanged_idempotent (t : Z) (r : InstanceRecord) (st : Store)
    (row : InstanceRow)
    (Hfound : lookupInstance (rec_id r) st = Some row)
    (Hsame : same_attributes r row = true) :
  reconcile write_fails t [r] st = (mkChangeSet [] [] [rec_id r] [], st)
  /\ (forall t0 st0,
        write_fails t0 r = false ->
        reconcile write_fails t [r] (snd (reconcile write_fails t0 [r] st0))
        = (mkChangeSet [] [] [rec_id r] [], snd (reconcile write_fails t0 [r] st0))).
Proof.
  split; [exact (reconcile_present_same t r st row Hfound Hsame)|].
  intros t0 st0 Hok.
  destruct (reconcile_leaves_record t0 r st0 Hok) as (row1 & Hl1 & Hs1).
  exact (reconcile_present_same t r _ row1 Hl1 Hs1).
Qed.

(** C8. Whatever the sequence of fetch results and whichever writes
    fail, the store that reconciliation builds from the empty store
    has no two rows with one identity key: every key in it has
    exactly one row. *)
Theorem identity_keys_unique (fetches : list (Z * list InstanceRecord)) :
  NoDup (keys (reconcileAll write_fails fetches []))
  /\ (forall id,
        In id (keys (reconcileAll write_fails fetches [])) ->
        List.length (filter (has_id id) (reconcileAll write_fails fetches [])) = 1%nat).
Proof.
  assert (Hu : NoDup (keys (reconcileAll write_fails fetches [])))
    by (apply reconcileAll_unique; constructor).
  split; [exact Hu|].
  intros id Hin. apply unique_key_one_row; assumption.
Qed.

End ReconcilerFacts.

Lemma reconcile_unchanged_idempotent_witness :
  let never := fun (_ : Z) (_ : InstanceRecord) => false in
  let a_up := mkRecord "A" "up" [("version", "23.1")] in
  let st := [mkInstanceRow "A" "up" [("version", "23.1")] 10] in
  reconcile never 20 [a_up] st = (mkChangeSet [] [] ["A"] [], st).
Proof.
  intros never a_up st.
  exact (proj1 (reconcile_unchanged_idempotent never 20 a_up st
                  (mkInstanceRow "A" "up" [("version", "23.1")] 10) eq_refl eq_refl)).
Defined.

Lemma identity_keys_unique_witness :
  let never := fun (_ : Z) (_ : InstanceRecord) => false in
  let fetches := [(10, [mkRecord "A" "up" []; mkRecord "B" "down" []; mkRecord "A" "down" []]);
                  (20, [mkRecord "B" "up" []; mkRecord "A" "down" []])] in
  List.length (filter (has_id "A") (reconcileAll never fetches [])) = 1%nat.
Proof.
  intros never fetches.
  apply (proj2 (identity_keys_unique never fetches) "A").
  vm_compute. left. reflexivity.
Defined.

(** * Further properties of the main process *)

(** ** The module body *)

Lemma ensureSettings_normal (w : World) : fst (ensureSettings w) = Normal tt.
Proof.
  unfold ensureSettings, db_all. destruct (db_exec SelectSettings w) as [[e|rows] w'];
    reflexivity.
Qed.

Lemma db_exec_keeps_scheduler (q : Sql) (w : World) :
  dormant w -> dormant (snd (db_exec q w)).
Proof.
  unfold db_exec, dormant. destruct (dbHandle w); try (cbn; tauto).
  destruct (exec q (tables w)). cbn. tauto.
Qed.

Lemma ensureSettings_dormant (w : World) : dormant w -> dormant (snd (ensureSettings w)).
Proof.
  intros Hd. unfold ensureSettings, db_all.
  pose proof (db_exec_keeps_scheduler SelectSettings w Hd) as H1.
  destruct (db_exec SelectSettings w) as [[e|rows] w1]; cbn [snd] in *.
  - unfold isolated, settingsCallback, bind, console_error, modify, rows_length, throw.
    cbn. unfold dormant in *. cbn. tauto.
  - unfold isolated, settingsCallback, bind, rows_length, ret.
    destruct (Z.of_nat (List.length rows) =? 0).
    + unfold console_log, modify.
      destruct (db_run_normal (InsertSettings "localhost" 0)
                  (add_console (ConsoleLog ["Initalizing SQLite..."]) w1))
        as (w2 & Hrun & Hw2).
      rewrite Hrun. apply Hw2. unfold dormant in *. cbn. tauto.
    + exact H1.
Qed.

Lemma createSchema_readable (env : Env) (q1 q2 : Sql) (w : World) :
  assets env "sql/create-settings.sql" = Some q1 ->
  assets env "sql/create-instances.sql" = Some q2 ->
  exists w', createSchema env w = (Normal tt, w') /\ (dormant w -> dormant w').
Proof.
  intros H1 H2. unfold createSchema, readFileSync, bind. rewrite H1, H2. unfold ret.
  destruct (db_run_normal q1 w) as (w1 & Hr1 & Hd1). rewrite Hr1.
  destruct (db_run_normal q2 w1) as (w2 & Hr2 & Hd2). rewrite Hr2.
  exists w2. split; [reflexivity | tauto].
Qed.

Lemma db_only_ret {A} (a : A) : db_only (ret a).
Proof. intros w. reflexivity. Qed.

Lemma db_only_throw {A} (e : JsError) : db_only (@throw A e).
Proof. intros w. reflexivity. Qed.

Lemma db_only_bind {A B} (m : JS A) (k : A -> JS B) :
  db_only m -> (forall a, db_only (k a)) -> db_only (bind m k).
Proof.
  intros Hm Hk w. unfold bind. specialize (Hm w).
  destruct (m w) as [[a|e] w1]; cbn [snd] in *.
  - rewrite Hk. exact Hm.
  - exact Hm.
Qed.

Lemma db_only_console (c : ConsoleCall) : db_only (modify (add_console c)).
Proof. intros w. reflexivity. Qed.

Lemma db_exec_scheduler (q : Sql) (w : World) :
  scheduler_part (snd (db_exec q w)) = scheduler_part w.
Proof.
  unfold db_exec. destruct (dbHandle w); try reflexivity.
  destruct (exec q (tables w)). reflexivity.
Qed.

Lemma db_only_db_run (q : Sql) : db_only (db_run q).
Proof.
  intros w. unfold db_run. pose proof (db_exec_scheduler q w) as H.
  destruct (db_exec q w) as [[e|rows] w1]; exact H.
Qed.

Lemma isolated_scheduler (m : JS unit) (w : World) :
  db_only m -> scheduler_part (isolated m w) = scheduler_part w.
Proof.
  intros Hm. unfold isolated. specialize (Hm w).
  destruct (m w) as [[u|e] w1]; exact Hm.
Qed.

Lemma db_only_db_all (q : Sql)
    (callback : option JsError -> option (list SettingsRow) -> JS unit) :
  (forall err rows, db_only (callback err rows)) -> db_only (db_all q callback).
Proof.
  intros Hcb w. unfold db_all. pose proof (db_exec_scheduler q w) as H.
  destruct (db_exec q w) as [[e|rows] w1]; cbn [snd] in *;
    rewrite isolated_scheduler by apply Hcb; exact H.
Qed.

Lemma db_only_settingsCallback (err : option JsError) (rows : option (list SettingsRow)) :
  db_only (settingsCallback err rows).
Proof.
  unfold settingsCallback. apply db_only_bind.
  - destruct err; [apply db_only_console | apply db_only_ret].
  - intros _. apply db_only_bind.
    + destruct rows; [apply db_only_ret | apply db_only_throw].
    + intros n. destruct (n =? 0); [|apply db_only_ret].
      apply db_only_bind; [apply db_only_console | intros _; apply db_only_db_run].
Qed.

Lemma db_only_readFileSync (env : Env) (p : string) : db_only (readFileSync env p).
Proof.
  unfold readFileSync. destruct (assets env p); [apply db_only_ret | apply db_only_throw].
Qed.

Lemma db_only_serializeBlock (env : Env) : db_only (serializeBlock env).
Proof.
  unfold serializeBlock, createSchema, ensureSettings.
  repeat (apply db_only_bind; [|intros ?]);
    try apply db_only_readFileSync; try apply db_only_db_run.
  apply db_only_db_all. apply db_only_settingsCallback.
Qed.

Lemma db_only_openDatabase (env : Env) : db_only (openDatabase env).
Proof.
  intros w. unfold openDatabase. destruct (openError env); reflexivity.
Qed.

(** The module body leaves the scheduler as it found it, but for the
    registration of the ready handler. *)
Lemma main_scheduler (env : Env) (w : World) :
  scheduler_part (snd (main env w)) = scheduler_part w
  \/ scheduler_part (snd (main env w)) = scheduler_part (set_boot AwaitingReady w).
Proof.
  unfold main, bind.
  pose proof (db_only_openDatabase env w) as H1.
  destruct (openDatabase env w) as [[u|e] w1]; cbn [snd] in *; [|left; exact H1].
  pose proof (db_only_serializeBlock env w1) as H2.
  destruct (serializeBlock env w1) as [[u2|e] w2]; cbn [snd] in *;
    [|left; congruence].
  destruct (gotTheLock env); cbn.
  - right. unfold scheduler_part in *. cbn. congruence.
  - left. congruence.
Qed.

(** The world a launch leaves has made no run and armed nothing, and
    its clock stands at the start. *)
Lemma launch_not_started (env : Env) (start : Z) (tb : Tables) :
  not_started start (snd (launch env start tb)).
Proof.
  unfold launch, not_started.
  destruct (main_scheduler env (pristine start tb)) as [H | H];
    unfold scheduler_part in H; cbn in H; injection H as Hb Ht Hc Hg Hn _ _ _ _;
    rewrite Hb, Ht, Hc, Hg, Hn; repeat split; try lia. left. reflexivity.
Qed.

(** ** The course of the scheduler *)

Lemma timers_fold_frame (due : list Z) (w : World) :
  boot (fold_left (fun w' (_ : Z) => isolated startupTimerCallback w') due w) = boot w
  /\ now (fold_left (fun w' (_ : Z) => isolated startupTimerCallback w') due w) = now w
  /\ mainWindow (fold_left (fun w' (_ : Z) => isolated startupTimerCallback w') due w)
     = mainWindow w.
Proof.
  revert w. induction due as [|d due IH]; intros w; cbn [fold_left]; [repeat split|].
  destruct (mainWindow w) as [win|] eqn:Hwin.
  - pose proof (IH (isolated startupTimerCallback w)) as H.
    rewrite (startupTimer_window w win Hwin) in H |- *.
    cbn [boot now mainWindow] in H. destruct H as (Hb & Hn & Hm).
    repeat split; [exact Hb | exact Hn | rewrite Hm; exact Hwin].
  - rewrite (startupTimer_no_window w Hwin). destruct (IH w) as (Hb & Hn & Hm).
    repeat split; [exact Hb | exact Hn | rewrite Hm; exact Hwin].
Qed.

Lemma runTimers_frame (w : World) :
  boot (runTimers w) = boot w /\ now (runTimers w) = now w
  /\ mainWindow (runTimers w) = mainWindow w.
Proof.
  unfold runTimers.
  exact (timers_fold_frame (filter (fun d => d <=? now w) (timeouts w))
           (set_timeouts (filter (fun d => negb (d <=? now w)) (timeouts w)) w)).
Qed.

Lemma runTimers_idle (w : World) :
  timeouts w = [] ->
  getInstancesCalls (runTimers w) = getInstancesCalls w
  /\ cronTasks (runTimers w) = cronTasks w /\ timeouts (runTimers w) = [].
Proof. intros H. unfold runTimers. rewrite H. cbn. repeat split. Qed.

Lemma later_seconds_snoc (l : list Call) (x : Call) :
  later_seconds l -> Forall (fun c => call_second c < call_second x) l ->
  later_seconds (l ++ [x]).
Proof.
  induction l as [|c l IH]; simpl; intros Hl Hx.
  - split; constructor.
  - destruct Hl as [Hc Hl]. inversion Hx as [|c' l' Hcx Hlx]; subst. split.
    + apply Forall_app. split; [exact Hc | constructor; [exact Hcx | constructor]].
    + apply IH; assumption.
Qed.

Lemma not_started_step (env : Env) (start t : Z) (e : Event) (w : World) :
  not_started start w -> phase start (dispatch env t e w).
Proof.
  intros (Hg & Hc & Hn & Hb).
  assert (Hnow : start <= Z.max (now w) t) by lia.
  destruct e; unfold dispatch.
  - left. cbn [boot set_now]. destruct (boot w) eqn:Eb.
    + unfold not_started. cbn. rewrite Eb. repeat split; assumption.
    + unfold isolated, whenReadyHandler, createWindow, bind.
      destruct (isDevelopment env); unfold not_started; cbn; rewrite Hb;
        (repeat split; try assumption); right; eexists; (split; [reflexivity|]);
        unfold startupDelay; lia.
    + unfold not_started. cbn. rewrite Eb. repeat split; assumption.
  - left. cbn [pendingCreate set_now]. destruct (pendingCreate w);
      unfold not_started; cbn; repeat split; assumption.
  - left. unfold not_started; cbn; repeat split; assumption.
  - left. cbn [boot set_now]. destruct (boot w) eqn:Eb;
      try (unfold not_started; cbn; rewrite Eb; repeat split; assumption).
    unfold isolated, activateHandler, createWindow; cbn.
    destruct (mainWindow w), (isDevelopment env); unfold not_started; cbn; rewrite Eb;
      repeat split; assumption.
  - set (w1 := set_now (Z.max (now w) t) w).
    destruct (runTimers_frame w1) as (Fb & Fn & _).
    assert (Hts : timeouts w = [] \/
                  (boot w <> AwaitingReady /\
                   exists d, timeouts w = [d] /\ start + startupDelay <= d)).
    { destruct (boot w); [ | left; exact Hb | ];
        (destruct Hb as [Hb | Hb]; [left; exact Hb | right; split; [discriminate | exact Hb]]). }
    destruct Hts as [Hts | (Hboot & d & Hts & Hd)].
    + left. destruct (runTimers_idle w1 Hts) as (Rg & Rc & Rt).
      unfold not_started. rewrite Rg, Rc, Rt, Fb, Fn. cbn.
      repeat split; try assumption. destruct (boot w); [left| |left]; reflexivity.
    + destruct (Z_le_gt_dec d (now w1)) as [Hle | Hgt].
      * destruct (mainWindow w1) as [win|] eqn:Hwin.
        -- right. destruct (runTimers_single_due w1 d win Hts Hle Hwin) as (Rg & Rc & Rt & _).
           exists win, (second_at (now w1)), (now w1), [].
           rewrite Rg, Rc, Rt, Fb, Fn. cbn. rewrite Hg, Hc. cbn in Hle.
           repeat split; try assumption; try reflexivity; try lia; constructor.
        -- left. rewrite (runTimers_no_window w1 Hwin).
           unfold not_started. cbn. rewrite Hts. cbn.
           replace (d <=? Z.max (now w) t) with true
             by (symmetry; apply Z.leb_le; exact Hle).
           cbn. repeat split; try assumption.
           destruct (boot w); [left| |left]; reflexivity.
      * left. destruct (runTimers_single_early w1 d Hts) as (Rg & Rc & Rt); [cbn in *; lia|].
        unfold not_started. rewrite Rg, Rc, Rt, Fb, Fn. cbn.
        repeat split; try assumption.
        destruct (boot w); [right| |right]; try contradiction;
          exists d; split; [reflexivity | exact Hd | reflexivity | exact Hd].
  - left. unfold cronClock. rewrite cron_fold. unfold not_started. cbn. rewrite Hc. cbn.
    rewrite app_nil_r. repeat split; assumption.
  - left. unfold not_started; cbn; repeat split; assumption.
Qed.

Lemma scheduled_call_later (win : BrowserWindow) (t0 a a' : Z) (c : Call) :
  a <= a' -> scheduled_call win t0 a c -> scheduled_call win t0 a' c.
Proof.
  unfold scheduled_call. intros Ha (H1 & H2 & H3 & H4 & H5).
  repeat split; try assumption. lia.
Qed.

Lemma started_step (env : Env) (start t : Z) (e : Event) (w : World) :
  started start w -> started start (dispatch env t e w).
Proof.
  intros (win & a & t0 & rest & Hb & Ht & Hc & Hg & Hd & Hn & Ha & Hrest & Hsorted).
  assert (Hnow : t0 <= Z.max (now w) t) by lia.
  pose proof Hsorted as [Hs1 Hs2].
  destruct e; unfold dispatch.
  - cbn [boot set_now]. destruct (boot w) eqn:Eb; [ | exfalso; apply Hb; reflexivity | ];
      exists win, a, t0, rest; cbn; rewrite Eb; repeat split; try assumption; discriminate.
  - cbn [pendingCreate set_now]. destruct (pendingCreate w);
      exists win, a, t0, rest; cbn; repeat split; assumption.
  - exists win, a, t0, rest; cbn; repeat split; assumption.
  - cbn [boot set_now]. destruct (boot w) eqn:Eb; [ | exfalso; apply Hb; reflexivity | ].
    + exists win, a, t0, rest; cbn; rewrite Eb; repeat split; try assumption; discriminate.
    + unfold isolated, activateHandler, createWindow; cbn.
      destruct (mainWindow w), (isDevelopment env);
        exists win, a, t0, rest; cbn; rewrite Eb; repeat split; try assumption; discriminate.
  - set (w1 := set_now (Z.max (now w) t) w).
    destruct (runTimers_frame w1) as (Fb & Fn & _).
    destruct (runTimers_idle w1 Ht) as (Rg & Rc & Rt).
    exists win, a, t0, rest. rewrite Rg, Rc, Rt, Fb, Fn. cbn.
    repeat split; assumption.
  - unfold cronClock. rewrite cron_fold. cbn. rewrite Hc, Hg. cbn [filter map].
    set (sec := second_at (Z.max (now w) t)).
    unfold mark_fired.
    destruct (fires sec (mkTask quarterHourly win a)) eqn:Hf.
    + unfold fires in Hf. cbn [lastExecution task_expr] in Hf.
      apply andb_true_iff in Hf. destruct Hf as [Hlt Hm].
      apply Z.ltb_lt in Hlt. apply quarterHourly_match in Hm.
      exists win, sec, t0, (rest ++ [mkCall (Z.max (now w) t) Scheduled win]).
      cbn. repeat split; try assumption; try lia.
      * apply Forall_app. split.
        -- eapply Forall_impl; [|exact Hrest].
           intros c. apply scheduled_call_later. lia.
        -- constructor; [|constructor]. unfold scheduled_call, call_second. cbn.
           fold sec. repeat split; try assumption; lia.
      * destruct Hsorted as [Hfirst _].
        apply Forall_app. split; [exact Hfirst|].
        constructor; [|constructor]. unfold call_second. cbn. fold sec. lia.
      * apply later_seconds_snoc; [exact (proj2 Hsorted)|].
        eapply Forall_impl; [|exact Hrest].
        intros c (_ & _ & _ & _ & Hle). unfold call_second at 2. cbn. fold sec. lia.
    + exists win, a, t0, rest. cbn. rewrite app_nil_r.
      repeat split; assumption.
  - exists win, a, t0, rest; cbn; repeat split; assumption.
Qed.

Lemma dispatch_phase (env : Env) (start t : Z) (e : Event) (w : World) :
  phase start w -> phase start (dispatch env t e w).
Proof.
  intros [H | H]; [apply not_started_step; exact H | right; apply started_step; exact H].
Qed.

Lemma run_phase (env : Env) (start : Z) (trace : list (Z * Event)) (w : World) :
  phase start w -> phase start (run env trace w).
Proof.
  revert w. induction trace as [|[t e] trace IH]; intros w H; simpl; [exact H|].
  apply IH. apply dispatch_phase. exact H.
Qed.

Lemma launched_phase (env : Env) (start : Z) (tb : Tables) (trace : list (Z * Event)) :
  phase start (run env trace (snd (launch env start tb))).
Proof. apply run_phase. left. apply launch_not_started. Qed.

Lemma scheduled_rest_no_initial (win : BrowserWindow) (t0 a : Z) (rest : list Call) :
  Forall (scheduled_call win t0 a) rest ->
  filter (fun c => match call_origin c with Initial => true | Scheduled => false end) rest = [].
Proof.
  induction 1 as [|c rest (Ho & _) _ IH]; simpl; [reflexivity|].
  rewrite Ho. exact IH.
Qed.

(** X1. Whatever happens after a launch, [StartTasks] arms the schedule
    at most once: there is never more than one cron task, it is the
    quarter-hourly one, and it is there exactly when the initial run
    has been made. *)
Theorem schedule_armed_at_most_once (env : Env) (start : Z) (tb : Tables)
    (trace : list (Z * Event)) :
  let w := run env trace (snd (launch env start tb)) in
  (List.length (cronTasks w) <= 1)%nat
  /\ Forall (fun k => task_expr k = quarterHourly) (cronTasks w)
  /\ List.length (cronTasks w) = initial_runs w.
Proof.
  intros w. destruct (launched_phase env start tb trace) as [H | H]; fold w in H.
  - destruct H as (Hg & Hc & _). unfold initial_runs. rewrite Hg, Hc. cbn.
    repeat split; [lia | constructor].
  - destruct H as (win & a & t0 & rest & _ & _ & Hc & Hg & _ & _ & _ & Hrest & _).
    unfold initial_runs. rewrite Hg, Hc. cbn.
    rewrite (scheduled_rest_no_initial win t0 a rest Hrest). cbn.
    repeat split; [lia | repeat constructor].
Qed.



(** X3. The first run of a process is the initial run and every later
    run is a scheduled one, made in a second that is a whole quarter of
    an hour on the wall clock. *)
Theorem scheduled_runs_on_quarter_hours (env : Env) (start : Z) (tb : Tables)
    (trace : list (Z * Event)) :
  let w := run env trace (snd (launch env start tb)) in
  getInstancesCalls w = []
  \/ exists first rest,
       getInstancesCalls w = first :: rest
       /\ call_origin first = Initial
       /\ Forall (fun c => call_origin c = Scheduled /\ call_second c mod 900 = 0) rest.
Proof.
  intros w. destruct (launched_phase env start tb trace) as [H | H]; fold w in H.
  - left. exact (proj1 H).
  - right. destruct H as (win & a & t0 & rest & _ & _ & _ & Hg & _ & _ & _ & Hrest & _).
    exists (mkCall t0 Initial win), rest. repeat split; [exact Hg|].
    eapply Forall_impl; [|exact Hrest]. intros c (H1 & _ & H3 & _). split; assumption.
Qed.

(** X4. No run is made in the first five seconds of a process: every
    call of [GetInstances] comes 5000 ms or more after the start. *)
Theorem no_run_in_first_five_seconds (env : Env) (start : Z) (tb : Tables)
    (trace : list (Z * Event)) (c : Call) :
  In c (getInstancesCalls (run env trace (snd (launch env start tb)))) ->
  start + 5000 <= call_time c.
Proof.
  intros Hin. destruct (launched_phase env start tb trace) as [H | H].
  - rewrite (proj1 H) in Hin. contradiction.
  - destruct H as (win & a & t0 & rest & _ & _ & _ & Hg & Hd & _ & _ & Hrest & _).
    unfold startupDelay in Hd. rewrite Hg in Hin. destruct Hin as [<- | Hin].
    + exact Hd.
    + rewrite Forall_forall in Hrest. destruct (Hrest c Hin) as (_ & _ & _ & Ht & _). lia.
Qed.

Lemma no_run_in_first_five_seconds_witness :
  420000 + 5000 <= call_time (mkCall 900000 Scheduled 0%nat).
Proof.
  apply (no_run_in_first_five_seconds (mkEnv None specAssets false true) 420000
           (mkTables None None)
           [(421000, AppReady); (426000, TimerFires); (900000, CronClock)]).
  vm_compute. right. left. reflexivity.
Defined.

Lemma later_seconds_nth (l : list Call) (i j : nat) (c1 c2 : Call) :
  later_seconds l -> nth_error l i = Some c1 -> nth_error l j = Some c2 ->
  (i < j)%nat -> call_second c1 < call_second c2.
Proof.
  revert i j. induction l as [|c l IH]; intros i j Hl H1 H2 Hij.
  - destruct i; discriminate H1.
  - destruct Hl as [Hc Hl]. destruct j as [|j]; [lia|]. cbn in H2.
    destruct i as [|i]; cbn in H1.
    + injection H1 as <-. rewrite Forall_forall in Hc.
      apply Hc. eapply nth_error_In. exact H2.
    + apply (IH i j); try assumption. lia.
Qed.

(** X5. Of two runs of a process the later one lies in a later second,
    and two scheduled runs are 15 minutes or more apart: the schedule
    never runs twice for one quarter hour. *)
Theorem runs_in_distinct_quarter_hours (env : Env) (start : Z) (tb : Tables)
    (trace : list (Z * Event)) (i j : nat) (c1 c2 : Call) :
  let w := run env trace (snd (launch env start tb)) in
  nth_error (getInstancesCalls w) i = Some c1 ->
  nth_error (getInstancesCalls w) j = Some c2 ->
  (i < j)%nat ->
  call_second c1 < call_second c2
  /\ (call_origin c1 = Scheduled -> 900 <= call_second c2 - call_second c1).
Proof.
  intros w H1 H2 Hij. destruct (launched_phase env start tb trace) as [H | H]; fold w in H.
  - rewrite (proj1 H) in H1. destruct i; discriminate H1.
  - destruct H as (win & a & t0 & rest & _ & _ & _ & Hg & _ & _ & _ & Hrest & Hsorted).
    rewrite Hg in H1, H2.
    assert (Hlt : call_second c1 < call_second c2)
      by exact (later_seconds_nth _ i j c1 c2 Hsorted H1 H2 Hij).
    split; [exact Hlt|]. intros Ho.
    destruct i as [|i]; cbn in H1; [injection H1 as <-; discriminate Ho|].
    destruct j as [|j]; [lia|]. cbn in H2.
    rewrite Forall_forall in Hrest.
    destruct (Hrest c1 (nth_error_In _ _ H1)) as (_ & _ & Hm1 & _).
    destruct (Hrest c2 (nth_error_In _ _ H2)) as (_ & _ & Hm2 & _).
    revert Hlt Hm1 Hm2. generalize (call_second c1) (call_second c2). intros s1 s2.
    intros Hlt Hm1 Hm2.
    pose proof (Z.div_mod s1 900). pose proof (Z.div_mod s2 900). lia.
Qed.

Lemma runs_in_distinct_quarter_hours_witness :
  call_second (mkCall 900000 Scheduled 0%nat) < call_second (mkCall 1800000 Scheduled 0%nat).
Proof.
  refine (proj1 (runs_in_distinct_quarter_hours (mkEnv None specAssets false true) 0
            (mkTables None None)
            [(1000, AppReady); (6000, TimerFires); (900000, CronClock);
             (900400, CronClock); (1800000, CronClock)]
            1 2 (mkCall 900000 Scheduled 0%nat) (mkCall 1800000 Scheduled 0%nat) _ _ _)).
  - vm_compute. reflexivity.
  - vm_compute. reflexivity.
  - lia.
Defined.

(** ** More on the start-up block *)

Lemma launch_readable_normal (env : Env) (start : Z) (tb : Tables) (q1 q2 : Sql) :
  assets env "sql/create-settings.sql" = Some q1 ->
  assets env "sql/create-instances.sql" = Some q2 ->
  fst (launch env start tb) = Normal tt.
Proof.
  intros H1 H2.
  destruct (openDatabase_normal env start tb) as (w0 & Hopen & _).
  unfold launch, main, serializeBlock, bind. rewrite Hopen.
  destruct (createSchema_readable env q1 q2 w0 H1 H2) as (w1 & Hs & _). rewrite Hs.
  pose proof (ensureSettings_normal w1) as He.
  destruct (ensureSettings w1) as [c w2]. cbn in He. subst c.
  destruct (gotTheLock env); reflexivity.
Qed.

(** X6. The module body throws exactly when one of the two schema files
    cannot be read.  No failure of the database (the file cannot be
    opened, a statement fails, the settings cannot be read) ever makes
    it throw. *)
Theorem launch_throws_iff_schema_unreadable (env : Env) (start : Z) (tb : Tables) :
  (exists e, fst (launch env start tb) = Throw e)
  <-> (assets env "sql/create-settings.sql" = None
       \/ assets env "sql/create-instances.sql" = None).
Proof.
  split.
  - intros (e & He).
    destruct (assets env "sql/create-settings.sql") as [q1|] eqn:H1; [|left; reflexivity].
    destruct (assets env "sql/create-instances.sql") as [q2|] eqn:H2; [|right; reflexivity].
    rewrite (launch_readable_normal env start tb q1 q2 H1 H2) in He. discriminate He.
  - intros Hmissing.
    destruct (launch_schema_unreadable env start tb Hmissing) as (e & w & Hl & _).
    exists e. rewrite Hl. reflexivity.
Qed.

Lemma launch_throws_iff_schema_unreadable_witness :
  exists e, fst (launch (mkEnv None (fun _ => None) false true) 0 (mkTables None None))
            = Throw e.
Proof.
  apply (proj2 (launch_throws_iff_schema_unreadable
                  (mkEnv None (fun _ => None) false true) 0 (mkTables None None))).
  left. reflexivity.
Defined.

(** X7. The settings check of the start-up block only ever adds the
    default row to an empty settings table: it leaves the tables as
    they are in every other case (rows present, table missing, handle
    not open), never touches the instances table, and run a second
    time it changes nothing. *)
Theorem settings_check_idempotent (w : World) :
  let w1 := snd (ensureSettings w) in
  (tables w1 = tables w
   \/ (dbHandle w = Opened /\ settings (tables w) = Some []
       /\ tables w1 = mkTables (Some [defaultSettings]) (instances (tables w))))
  /\ instances (tables w1) = instances (tables w)
  /\ tables (snd (ensureSettings w1)) = tables w1.
Proof.
  destruct w as [c u h [[[|r rs]|] i] n m wc pc b ts ct gc rn]; destruct h; cbn;
    repeat split; try (left; reflexivity).
  right. repeat split.
Qed.

(** ** Windows, the tray and quitting *)

Lemma timers_fold_windows (due : list Z) (w : World) :
  windowsCreated (fold_left (fun w' (_ : Z) => isolated startupTimerCallback w') due w)
  = windowsCreated w.
Proof.
  revert w. induction due as [|x due IH]; intros w; cbn [fold_left]; [reflexivity|].
  rewrite IH. destruct (mainWindow w) as [win|] eqn:Hwin.
  - rewrite (startupTimer_window w win Hwin). reflexivity.
  - rewrite (startupTimer_no_window w Hwin). reflexivity.
Qed.

(** A turn of the scheduler's loop other than ['closed'] leaves the
    windows as they are or makes one window and puts it in
    [mainWindow]. *)
Lemma dispatch_window_effect (env : Env) (t : Z) (e : Event) (w : World) :
  e <> WindowClosed ->
  (windowsCreated (dispatch env t e w) = windowsCreated w
   /\ mainWindow (dispatch env t e w) = mainWindow w)
  \/ (windowsCreated (dispatch env t e w) = S (windowsCreated w)
      /\ mainWindow (dispatch env t e w) = Some (windowsCreated w)).
Proof.
  intros He. destruct e; try congruence; unfold dispatch.
  - cbn [boot set_now]. destruct (boot w); try (left; split; reflexivity).
    unfold isolated, whenReadyHandler, createWindow, bind.
    destruct (isDevelopment env); cbn; [left | right]; split; reflexivity.
  - cbn [pendingCreate set_now]. destruct (pendingCreate w); cbn;
      [left | right]; split; reflexivity.
  - cbn [boot set_now]. destruct (boot w); try (left; split; reflexivity).
    unfold isolated, activateHandler, createWindow. cbn.
    destruct (mainWindow w) eqn:Hm; [left; cbn; rewrite Hm; split; reflexivity|].
    destruct (isDevelopment env); cbn; [left; rewrite Hm | right]; split; reflexivity.
  - left. destruct (runTimers_frame (set_now (Z.max (now w) t) w)) as (_ & _ & Hm).
    rewrite Hm. unfold runTimers. rewrite timers_fold_windows. split; reflexivity.
  - left. unfold cronClock. rewrite cron_fold. split; reflexivity.
  - left. split; reflexivity.
Qed.

Lemma request_close_quitting (win : BrowserWindow) (s : Shell) :
  isQuiting s = true -> request_close win s = window_closed win s.
Proof. intros H. unfold request_close, closeHandler. rewrite H. reflexivity. Qed.

Lemma request_close_prevented (win : BrowserWindow) (s : Shell) :
  isQuiting s = false -> request_close win s = on_main CallHide s.
Proof. intros H. unfold request_close, closeHandler. rewrite H. reflexivity. Qed.

Lemma close_all (l : list BrowserWindow) (s : Shell) :
  isQuiting s = true ->
  isQuiting (fold_left (fun s' win => request_close win s') l s) = true
  /\ (forall x, In x (openWindows (fold_left (fun s' win => request_close win s') l s)) ->
                In x (openWindows s) /\ ~ In x l)
  /\ (mainWindow (core s) = None \/ l <> [] ->
      mainWindow (core (fold_left (fun s' win => request_close win s') l s)) = None)
  /\ windowsCreated (core (fold_left (fun s' win => request_close win s') l s))
     = windowsCreated (core s).
Proof.
  revert s. induction l as [|win l IH]; intros s Hq; cbn [fold_left].
  - repeat split; try assumption; try (intros []; [assumption | congruence]).
    intros [].
  - rewrite (request_close_quitting win s Hq).
    destruct (IH (window_closed win s) Hq) as (Hq' & Hopen & Hmain & Hn).
    repeat split.
    + exact Hq'.
    + destruct (Hopen x H) as [Hin _]. cbn in Hin. apply filter_In in Hin. tauto.
    + destruct (Hopen x H) as [Hin Hnot]. cbn in Hin. apply filter_In in Hin.
      destruct Hin as [_ Hne]. intros [Heq | Hl]; [|exact (Hnot Hl)].
      subst x. rewrite Nat.eqb_refl in Hne. discriminate Hne.
    + intros _. apply Hmain. left. reflexivity.
    + exact Hn.
Qed.

Lemma no_element_nil {A} (l : list A) : (forall x, In x l -> False) -> l = [].
Proof.
  destruct l as [|a l]; [reflexivity|]. intros H. exfalso. apply (H a). left. reflexivity.
Qed.

(** [app.quit()] ends the process, provided the handler of
    ['before-quit'] is there whenever a window is open. *)
Lemma app_quit_exits (s : Shell) :
  quit_ready s ->
  exited (app_quit s) = true
  /\ openWindows (app_quit s) = []
  /\ mainWindow (core (app_quit s)) = None.
Proof.
  intros [Hnone Hreg]. unfold app_quit.
  set (s1 := mkShell (core s) (isQuiting s) (openWindows s) (windowCalls s)
               (S (quitCalls s)) (exited s)).
  set (s2 := if (0 <? windowsCreated (core s1))%nat then beforeQuitHandler s1 else s1).
  assert (Hcore : core s2 = core s /\ openWindows s2 = openWindows s)
    by (unfold s2; destruct (0 <? windowsCreated (core s1))%nat; split; reflexivity).
  destruct Hcore as [Hcore Hopen].
  destruct (openWindows s) as [|win rest] eqn:Hl.
  - rewrite Hopen. cbn [fold_left]. rewrite Hopen. cbn. rewrite Hcore.
    repeat split. apply Hnone. reflexivity.
  - assert (Hq : isQuiting s2 = true).
    { unfold s2. destruct (Hreg ltac:(discriminate)) as [Hpos | Hq].
      - replace (0 <? windowsCreated (core s1))%nat with true
          by (symmetry; apply Nat.ltb_lt; exact Hpos).
        reflexivity.
      - destruct (0 <? windowsCreated (core s1))%nat; [reflexivity | exact Hq]. }
    destruct (close_all (openWindows s2) s2 Hq) as (_ & Hleft & Hmain & _).
    assert (Hempty : openWindows
                       (fold_left (fun s' w => request_close w s') (openWindows s2) s2) = []).
    { apply no_element_nil. intros x Hx. destruct (Hleft x Hx) as [Hin Hnot]. exact (Hnot Hin). }
    rewrite Hempty. cbn. repeat split.
    apply Hmain. right. rewrite Hopen. discriminate.
Qed.

Lemma exited_inv (s : Shell) :
  exited s = true -> openWindows s = [] -> mainWindow (core s) = None -> shell_inv s.
Proof. intros He Ho Hm. unfold shell_inv. rewrite He. split; assumption. Qed.

Lemma app_quit_inv (s : Shell) : quit_ready s -> shell_inv (app_quit s).
Proof.
  intros H. destruct (app_quit_exits s H) as (He & Ho & Hm). apply exited_inv; assumption.
Qed.

Lemma quit_ready_nothing_open (s : Shell) :
  openWindows s = [] -> mainWindow (core s) = None -> quit_ready s.
Proof. intros Ho Hm. split; [intros _; exact Hm | intros Hne; contradiction]. Qed.

Lemma is_open_seq (win : BrowserWindow) (s : Shell) (n : nat) :
  openWindows s = seq 0 n -> is_open win s = true -> (win < n)%nat.
Proof.
  unfold is_open. intros Ho H. rewrite Ho in H. apply existsb_exists in H.
  destruct H as (x & Hin & Heq). apply Nat.eqb_eq in Heq. subst x.
  apply in_seq in Hin. lia.
Qed.

Lemma newest_some (n : nat) (win : BrowserWindow) :
  (win < n)%nat -> exists k, newest n = Some k.
Proof. destruct n as [|k]; [lia|]. intros _. exists k. reflexivity. Qed.

(** The invariant of the process: every turn keeps it. *)
Lemma shell_dispatch_inv (env : Env) (d : Desktop) (t : Z) (ev : ShellEvent) (s : Shell) :
  shell_inv s -> shell_inv (shell_dispatch env d t ev s).
Proof.
  intros Hinv. unfold shell_dispatch.
  destruct (exited s) eqn:He; [exact Hinv|].
  unfold shell_inv in Hinv. rewrite He in Hinv. destruct Hinv as (Hq & Ho & Hm).
  set (n := windowsCreated (core s)) in *.
  set (s1 := with_core (set_now (Z.max (now (core s)) t)) s).
  assert (H1 : shell_inv s1)
    by (unfold shell_inv; cbn; rewrite He; repeat split; assumption).
  assert (Hcall : forall win c, shell_inv (record_call win c s1))
    by (intros win c; unfold shell_inv; cbn; rewrite He; repeat split; assumption).
  assert (Hmain : forall c, shell_inv (on_main c s1)).
  { intros c. unfold on_main. destruct (mainWindow (core s1)); [apply Hcall | exact H1]. }
  assert (Hready : quit_ready s1).
  { split; cbn; fold n.
    - intros Hnil. rewrite Hm. rewrite Ho in Hnil. destruct n; [reflexivity | discriminate Hnil].
    - intros Hne. left. rewrite Ho in Hne. destruct n; [contradiction | lia]. }
  destruct ev as [e | win | win | win | | | minimized | ].
  - assert (Hcore : e <> WindowClosed ->
              shell_inv (sync_windows (windowsCreated (core s))
                           (with_core (dispatch env t e) s))).
    { intros Hne. unfold shell_inv. cbn. rewrite He. fold n.
      destruct (dispatch_window_effect env t e (core s) Hne) as [[Hn Hw] | [Hn Hw]];
        rewrite Hn, Hw; fold n.
      - rewrite Nat.sub_diag. cbn. rewrite app_nil_r. repeat split; assumption.
      - replace (S n - n)%nat with 1%nat by lia. cbn [seq].
        rewrite Ho, <- seq_S. repeat split. exact Hq. }
    destruct e; try (apply Hcore; discriminate). exact H1.
  - destruct (is_open win s1); [|exact H1].
    unfold readyToShowHandler. destruct (mainWindow (core s1)) eqn:Hw; [apply Hcall|].
    unfold shell_inv. cbn. rewrite He. repeat split; assumption.
  - destruct (is_open win s1) eqn:Hopen; [|exact H1].
    cbn zeta. rewrite (request_close_prevented win s1) by exact Hq.
    assert (Hsame : is_open win (on_main CallHide s1) = true).
    { unfold on_main. destruct (mainWindow (core s1)); exact Hopen. }
    rewrite Hsame. apply Hmain.
  - destruct (is_open win s1); [apply Hmain | exact H1].
  - destruct (boot (core s1)); try exact H1. apply Hmain.
  - destruct (boot (core s1)); try exact H1.
    unfold trayQuitHandler. apply app_quit_inv.
    destruct (mainWindow (core s1)) as [win|] eqn:Hw; [|exact Hready].
    unfold destroy.
    set (s2 := window_closed win (record_call win CallDestroy s1)).
    assert (H2 : quit_ready s2).
    { split; [intros _; reflexivity|]. intros _. left. cbn. fold n.
      cbn in Hw. rewrite Hm in Hw. destruct n; [discriminate Hw | lia]. }
    unfold after_close. destruct (openWindows s2) eqn:Ho2; [|exact H2].
    unfold windowAllClosedHandler. destruct (darwin d); [exact H2|].
    destruct (app_quit_exits s2 H2) as (_ & Ho3 & Hm3).
    apply quit_ready_nothing_open; assumption.
  - destruct (boot (core s1)); try exact H1;
      unfold secondInstanceHandler;
      (destruct (mainWindow (core s1)) eqn:Hw; [|exact H1]);
      destruct minimized; unfold shell_inv; cbn; rewrite He; repeat split; assumption.
  - apply app_quit_inv. exact Hready.
Qed.

Lemma shell_run_inv (env : Env) (d : Desktop) (trace : list (Z * ShellEvent)) (s : Shell) :
  shell_inv s -> shell_inv (shell_run env d trace s).
Proof.
  revert s. induction trace as [|[t ev] trace IH]; intros s H; simpl; [exact H|].
  apply IH. apply shell_dispatch_inv. exact H.
Qed.

Lemma shell_launch_inv (env : Env) (start : Z) (tb : Tables) :
  shell_inv (shell_launch env start tb).
Proof.
  unfold shell_launch, launch.
  assert (Hw : windowsCreated (snd (main env (pristine start tb))) = 0%nat
               /\ mainWindow (snd (main env (pristine start tb))) = None).
  { destruct (main_scheduler env (pristine start tb)) as [H | H];
      unfold scheduler_part in H; cbn in H; injection H as _ _ _ _ _ Hm Hn _ _;
      split; assumption. }
  destruct Hw as [Hn Hm].
  destruct (main env (pristine start tb)) as [[u|e] w]; cbn [snd] in *.
  - destruct (gotTheLock env).
    + unfold shell_inv. cbn. rewrite Hn, Hm. repeat split.
    + apply app_quit_inv. apply quit_ready_nothing_open; [reflexivity | exact Hm].
  - unfold shell_inv. cbn. rewrite Hn, Hm. repeat split.
Qed.

Lemma launched_shell_inv (env : Env) (d : Desktop) (start : Z) (tb : Tables)
    (trace : list (Z * ShellEvent)) :
  shell_inv (shell_run env d trace (shell_launch env start tb)).
Proof. apply shell_run_inv. apply shell_launch_inv. Qed.

(** X8. Close to tray: as long as the process has not ended, no window
    it has made has been closed, whatever the user closed, minimized or
    clicked; all of them are open, [mainWindow] is the newest of them,
    and [isQuiting] is not set.  Windows close only in a quit. *)
Theorem windows_close_only_on_exit (env : Env) (d : Desktop) (start : Z) (tb : Tables)
    (trace : list (Z * ShellEvent)) :
  let s := shell_run env d trace (shell_launch env start tb) in
  exited s = false ->
  isQuiting s = false
  /\ openWindows s = seq 0 (windowsCreated (core s))
  /\ mainWindow (core s) = newest (windowsCreated (core s)).
Proof.
  intros s He. pose proof (launched_shell_inv env d start tb trace) as H.
  fold s in H. unfold shell_inv in H. rewrite He in H. exact H.
Qed.

Lemma windows_close_only_on_exit_witness :
  let env := mkEnv None specAssets false true in
  let s := shell_run env (mkDesktop false false)
             [(1000, Core AppReady); (2000, CloseRequest 0%nat); (3000, Minimized 0%nat)]
             (shell_launch env 0 (mkTables None None)) in
  openWindows s = [0%nat] /\ mainWindow (core s) = Some 0%nat.
Proof.
  intros env s.
  destruct (windows_close_only_on_exit env (mkDesktop false false) 0 (mkTables None None)
              [(1000, Core AppReady); (2000, CloseRequest 0%nat); (3000, Minimized 0%nat)])
    as (_ & Ho & Hm).
  - vm_compute. reflexivity.
  - split; [exact Ho | exact Hm].
Defined.

(** X9. A quit always goes through: wherever the process stands, a
    request to quit ends it with every window closed and [mainWindow]
    null, and so does "Quit" in the tray menu once the ready handler
    has run.  The handler of ['close'] never holds a quit up. *)
Theorem quit_always_exits (env : Env) (d : Desktop) (start : Z) (tb : Tables)
    (trace : list (Z * ShellEvent)) (t : Z) :
  let s := shell_run env d trace (shell_launch env start tb) in
  (exited (shell_dispatch env d t QuitRequest s) = true
   /\ openWindows (shell_dispatch env d t QuitRequest s) = []
   /\ mainWindow (core (shell_dispatch env d t QuitRequest s)) = None)
  /\ (boot (core s) = Ready ->
      exited (shell_dispatch env d t TrayQuit s) = true
      /\ openWindows (shell_dispatch env d t TrayQuit s) = []
      /\ mainWindow (core (shell_dispatch env d t TrayQuit s)) = None).
Proof.
  intros s.
  assert (Hgen : forall ev,
             shell_inv (shell_dispatch env d t ev s) ->
             exited (shell_dispatch env d t ev s) = true ->
             exited (shell_dispatch env d t ev s) = true
             /\ openWindows (shell_dispatch env d t ev s) = []
             /\ mainWindow (core (shell_dispatch env d t ev s)) = None).
  { intros ev Hinv He. unfold shell_inv in Hinv. rewrite He in Hinv.
    split; [exact He | exact Hinv]. }
  pose proof (launched_shell_inv env d start tb trace) as Hs. fold s in Hs.
  assert (Hready : exited s = false ->
             quit_ready (with_core (set_now (Z.max (now (core s)) t)) s)).
  { intros He. unfold shell_inv in Hs. rewrite He in Hs. destruct Hs as (_ & Ho & Hm).
    split; cbn.
    - intros Hnil. rewrite Hm. rewrite Ho in Hnil.
      destruct (windowsCreated (core s)); [reflexivity | discriminate Hnil].
    - intros Hne. left. rewrite Ho in Hne.
      destruct (windowsCreated (core s)); [contradiction | lia]. }
  split.
  - apply Hgen; [apply shell_dispatch_inv; exact Hs|].
    unfold shell_dispatch. destruct (exited s) eqn:He; [exact He|].
    apply app_quit_exits. apply Hready. reflexivity.
  - intros Hboot. apply Hgen; [apply shell_dispatch_inv; exact Hs|].
    unfold shell_dispatch. destruct (exited s) eqn:He; [exact He|].
    cbn [core with_core boot set_now]. rewrite Hboot.
    unfold trayQuitHandler.
    set (s1 := with_core (set_now (Z.max (now (core s)) t)) s).
    apply app_quit_exits.
    destruct (mainWindow (core s1)) as [win|] eqn:Hw; [|apply Hready; reflexivity].
    unfold destroy.
    set (s2 := window_closed win (record_call win CallDestroy s1)).
    assert (H2 : quit_ready s2).
    { split; [intros _; reflexivity|]. intros _. left.
      unfold shell_inv in Hs. rewrite He in Hs. destruct Hs as (_ & _ & Hm).
      cbn in Hw |- *. rewrite Hm in Hw.
      destruct (windowsCreated (core s)); [discriminate Hw | lia]. }
    unfold after_close. destruct (openWindows s2) eqn:Ho2; [|exact H2].
    unfold windowAllClosedHandler. destruct (darwin d); [exact H2|].
    destruct (app_quit_exits s2 H2) as (_ & Ho3 & Hm3).
    apply quit_ready_nothing_open; assumption.
Qed.

Lemma quit_always_exits_witness :
  let env := mkEnv None specAssets true true in
  let d := mkDesktop false true in
  let s := shell_run env d
             [(1000, Core AppReady); (1100, Core Activate);
              (2000, Core ExtensionsInstalled); (2100, Core ExtensionsInstalled);
              (3000, CloseRequest 0%nat)]
             (shell_launch env 0 (mkTables None None)) in
  openWindows s = [0%nat; 1%nat]
  /\ exited (shell_dispatch env d 4000 TrayQuit s) = true.
Proof.
  intros env d s. split; [vm_compute; reflexivity|].
  refine (proj1 (proj2 (quit_always_exits env d 0 (mkTables None None)
            [(1000, Core AppReady); (1100, Core Activate);
             (2000, Core ExtensionsInstalled); (2100, Core ExtensionsInstalled);
             (3000, CloseRequest 0%nat)] 4000) _)).
  vm_compute. reflexivity.
Defined.

(** X10. The handler of ['ready-to-show'] never throws: whenever a
    window is open in a running process, [mainWindow] is not null, so
    the handler shows or minimizes the main window. *)
Theorem ready_to_show_never_throws (env : Env) (d : Desktop) (start : Z) (tb : Tables)
    (trace : list (Z * ShellEvent)) (win : BrowserWindow) :
  let s := shell_run env d trace (shell_launch env start tb) in
  exited s = false -> is_open win s = true ->
  exists main,
    mainWindow (core s) = Some main
    /\ readyToShowHandler d s
       = (Normal tt,
          record_call main (if startMinimized d then CallMinimize else CallShow) s).
Proof.
  intros s He Hopen.
  pose proof (launched_shell_inv env d start tb trace) as H. fold s in H.
  unfold shell_inv in H. rewrite He in H. destruct H as (_ & Ho & Hm).
  destruct (newest_some _ win (is_open_seq win s _ Ho Hopen)) as (k & Hk).
  exists k. rewrite Hk in Hm. split; [exact Hm|].
  unfold readyToShowHandler. rewrite Hm. reflexivity.
Qed.

Lemma ready_to_show_never_throws_witness :
  let env := mkEnv None specAssets true true in
  let s := shell_run env (mkDesktop true false)
             [(1000, Core AppReady); (1100, Core Activate);
              (2000, Core ExtensionsInstalled); (2100, Core ExtensionsInstalled)]
             (shell_launch env 0 (mkTables None None)) in
  exists main, mainWindow (core s) = Some main
               /\ readyToShowHandler (mkDesktop true false) s
                  = (Normal tt, record_call main CallMinimize s).
Proof.
  intros env s.
  apply (ready_to_show_never_throws env (mkDesktop true false) 0 (mkTables None None)
           [(1000, Core AppReady); (1100, Core Activate);
            (2000, Core ExtensionsInstalled); (2100, Core ExtensionsInstalled)] 0%nat).
  - vm_compute. reflexivity.
  - vm_compute. reflexivity.
Defined.

(** In a process that goes on running, a turn does to the world what a
    turn of the scheduler's loop other than ['closed'] does, or only
    moves the clock. *)
Lemma shell_core_step (env : Env) (d : Desktop) (t : Z) (ev : ShellEvent) (s : Shell) :
  shell_inv s -> exited s = false ->
  exited (shell_dispatch env d t ev s) = false ->
  (exists e, e <> WindowClosed /\ core (shell_dispatch env d t ev s) = dispatch env t e (core s))
  \/ core (shell_dispatch env d t ev s) = set_now (Z.max (now (core s)) t) (core s).
Proof.
  intros Hinv He. unfold shell_dispatch. rewrite He.
  unfold shell_inv in Hinv. rewrite He in Hinv. destruct Hinv as (Hq & Ho & Hm).
  set (s1 := with_core (set_now (Z.max (now (core s)) t)) s).
  assert (Hready : quit_ready s1).
  { split; cbn.
    - intros Hnil. rewrite Hm. rewrite Ho in Hnil.
      destruct (windowsCreated (core s)); [reflexivity | discriminate Hnil].
    - intros Hne. left. rewrite Ho in Hne.
      destruct (windowsCreated (core s)); [contradiction | lia]. }
  destruct ev as [e | win | win | win | | | minimized | ]; intros He'.
  - destruct e; try (left; eexists; split; [|reflexivity]; discriminate).
    right. reflexivity.
  - right. destruct (is_open win s1) eqn:Hopen; [|reflexivity].
    assert (Hlt : (win < windowsCreated (core s))%nat)
      by (apply (is_open_seq win s1); [exact Ho | exact Hopen]).
    destruct (newest_some _ win Hlt) as (k & Hk).
    unfold readyToShowHandler.
    change (mainWindow (core s1)) with (mainWindow (core s)).
    rewrite Hm, Hk. reflexivity.
  - right. destruct (is_open win s1) eqn:Hopen; [|reflexivity].
    cbn zeta. rewrite (request_close_prevented win s1) by exact Hq.
    assert (Hsame : is_open win (on_main CallHide s1) = true).
    { unfold on_main. destruct (mainWindow (core s1)); exact Hopen. }
    rewrite Hsame. unfold on_main. destruct (mainWindow (core s1)); reflexivity.
  - right. destruct (is_open win s1); [|reflexivity].
    unfold minimizeHandler, on_main. destruct (mainWindow (core s1)); reflexivity.
  - right. destruct (boot (core s1)); try reflexivity.
    unfold trayClickHandler, on_main. destruct (mainWindow (core s1)); reflexivity.
  - right. destruct (boot (core s1)); try reflexivity.
    exfalso. unfold trayQuitHandler in He'.
    assert (Hpre : quit_ready (match mainWindow (core s1) with
                               | Some win => destroy d win s1
                               | None => s1
                               end)).
    { destruct (mainWindow (core s1)) as [win|] eqn:Hw; [|exact Hready].
      unfold destroy.
      set (s2 := window_closed win (record_call win CallDestroy s1)).
      assert (H2 : quit_ready s2).
      { split; [intros _; reflexivity|]. intros _. left.
        cbn in Hw |- *. rewrite Hm in Hw.
        destruct (windowsCreated (core s)); [discriminate Hw | lia]. }
      unfold after_close. destruct (openWindows s2) eqn:Ho2; [|exact H2].
      unfold windowAllClosedHandler. destruct (darwin d); [exact H2|].
      destruct (app_quit_exits s2 H2) as (_ & Ho3 & Hm3).
      apply quit_ready_nothing_open; assumption. }
    destruct (app_quit_exits _ Hpre) as (Hex & _). rewrite Hex in He'. discriminate He'.
  - right. destruct (boot (core s1)); try reflexivity;
      unfold secondInstanceHandler;
      destruct (mainWindow (core s1)); try reflexivity; destruct minimized; reflexivity.
  - exfalso. destruct (app_quit_exits s1 Hready) as (Hex & _).
    rewrite Hex in He'. discriminate He'.
Qed.

Lemma exited_stays (env : Env) (d : Desktop) (trace : list (Z * ShellEvent)) (s : Shell) :
  exited s = true -> shell_run env d trace s = s.
Proof.
  intros He. induction trace as [|[t ev] trace IH]; simpl; [reflexivity|].
  unfold shell_dispatch. rewrite He. exact IH.
Qed.

(** What every turn of the loop but ['closed'] keeps, and the clock
    too, holds as long as the process runs. *)
Lemma shell_run_core (env : Env) (d : Desktop) (P : World -> Prop) :
  (forall t e w, e <> WindowClosed -> P w -> P (dispatch env t e w)) ->
  (forall t w, P w -> P (set_now (Z.max (now w) t) w)) ->
  forall trace s,
    shell_inv s -> P (core s) ->
    exited (shell_run env d trace s) = false -> P (core (shell_run env d trace s)).
Proof.
  intros Hdispatch Hclock. induction trace as [|[t ev] trace IH]; intros s Hinv HP He;
    simpl in *; [exact HP|].
  destruct (exited s) eqn:Hes.
  - assert (Hsame : shell_dispatch env d t ev s = s)
      by (unfold shell_dispatch; rewrite Hes; reflexivity).
    rewrite Hsame, (exited_stays env d trace s Hes) in He. congruence.
  - destruct (exited (shell_dispatch env d t ev s)) eqn:Hes'.
    + rewrite (exited_stays env d _ _ Hes') in He. congruence.
    + apply IH; [apply shell_dispatch_inv; exact Hinv | | exact He].
      destruct (shell_core_step env d t ev s Hinv Hes Hes') as [(e & Hne & Hc) | Hc];
        rewrite Hc; [apply Hdispatch | apply Hclock]; assumption.
Qed.

Lemma phase_clock (start t : Z) (w : World) :
  phase start w -> phase start (set_now (Z.max (now w) t) w).
Proof.
  intros H.
  exact (dispatch_phase (mkEnv None (fun _ => None) false false) start t PipelineDone w H).
Qed.

Lemma window_ready_clock (t : Z) (w : World) :
  window_ready w -> window_ready (set_now (Z.max (now w) t) w).
Proof. intros H. exact H. Qed.

Lemma window_ready_step (env : Env) (start t : Z) (e : Event) (w : World) :
  isDevelopment env = false -> e <> WindowClosed ->
  phase start w -> window_ready w -> window_ready (dispatch env t e w).
Proof.
  intros Hprod Hne Hphase Hwr. unfold window_ready in *.
  destruct e; try congruence; unfold dispatch.
  - cbn [boot set_now]. destruct (boot w) eqn:Eb.
    + cbn. rewrite Eb. discriminate.
    + unfold isolated, whenReadyHandler, createWindow, bind. rewrite Hprod. cbn.
      intros _. split; [discriminate|]. left. destruct (timeouts w); discriminate.
    + cbn. rewrite Eb. intros _. apply Hwr. reflexivity.
  - cbn [pendingCreate set_now]. destruct (pendingCreate w); cbn; intros Hb;
      destruct (Hwr Hb) as [Hm Hrest]; split; try assumption. discriminate.
  - cbn [boot set_now]. destruct (boot w) eqn:Eb; cbn; rewrite ?Eb; try discriminate.
    intros _. destruct (Hwr eq_refl) as [Hm Hrest].
    unfold isolated, activateHandler. cbn.
    destruct (mainWindow w) eqn:Hw; [|contradiction]. cbn. rewrite Hw. split; assumption.
  - set (w1 := set_now (Z.max (now w) t) w).
    destruct (runTimers_frame w1) as (Fb & _ & Fm). rewrite Fb, Fm.
    change (boot w1) with (boot w). change (mainWindow w1) with (mainWindow w).
    intros Hb. destruct (Hwr Hb) as [Hm Hrest]. split; [exact Hm|].
    destruct Hphase as [(Hg & _ & _ & Hts) | Hst].
    + rewrite Hb in Hts. destruct Hrest as [Hrest | Hrest]; [|contradiction].
      destruct Hts as [Hts | (x & Hts & _)]; [contradiction|].
      destruct (Z_le_gt_dec x (now w1)) as [Hle | Hgt].
      * destruct (mainWindow w) as [win|] eqn:Hw; [|contradiction].
        destruct (runTimers_single_due w1 x win Hts Hle Hw) as (Rg & _).
        right. rewrite Rg. destruct (getInstancesCalls w1); discriminate.
      * destruct (runTimers_single_early w1 x Hts) as (_ & _ & Rt); [lia|].
        left. rewrite Rt. discriminate.
    + destruct Hst as (win & a & t0 & rest & _ & Hts & _ & Hg & _).
      destruct (runTimers_idle w1 Hts) as (Rg & _).
      right. rewrite Rg. cbn. rewrite Hg. discriminate.
  - unfold cronClock. rewrite cron_fold. cbn. intros Hb.
    destruct (Hwr Hb) as [Hm Hrest]. split; [exact Hm|].
    destruct Hrest as [Hrest | Hrest]; [left; exact Hrest|].
    right. destruct (getInstancesCalls w); [contradiction | discriminate].
  - cbn. exact Hwr.
Qed.

(** X11. In production the start-up timer always finds a window: in a
    process that has not ended, once the ready handler has run
    [mainWindow] is not null, and once its timer has fired the initial
    run has been made and the schedule is armed.  No closing,
    minimizing or clicking can prevent the start of the pipeline. *)
Theorem initial_run_made_in_production (env : Env) (d : Desktop) (start : Z)
    (tb : Tables) (trace : list (Z * ShellEvent))
    (Hprod : isDevelopment env = false) :
  let s := shell_run env d trace (shell_launch env start tb) in
  exited s = false -> boot (core s) = Ready ->
  mainWindow (core s) <> None
  /\ (timeouts (core s) = [] ->
      initial_runs (core s) = 1%nat /\ List.length (cronTasks (core s)) = 1%nat).
Proof.
  intros s He Hb.
  assert (Hcore : core (shell_launch env start tb) = snd (launch env start tb)).
  { unfold shell_launch. destruct (launch env start tb) as [[u|e] w]; cbn [snd];
      [|reflexivity]. destruct (gotTheLock env); [reflexivity|].
    unfold app_quit. cbn. destruct (windowsCreated w); reflexivity. }
  pose proof (shell_run_core env d (fun w => phase start w /\ window_ready w)) as Hrun.
  destruct (Hrun
              ltac:(intros t e w Hne [Hp Hw]; split;
                    [apply dispatch_phase; exact Hp
                    | apply (window_ready_step env start); assumption])
              ltac:(intros t w [Hp Hw]; split;
                    [apply phase_clock; exact Hp | exact Hw])
              trace (shell_launch env start tb) (shell_launch_inv env start tb))
    as [Hp Hw].
  - rewrite Hcore. split; [left; apply launch_not_started|].
    intros Hready. pose proof (launch_not_started env start tb) as (_ & _ & _ & Hl).
    exfalso.
    destruct (main_scheduler env (pristine start tb)) as [H | H];
      unfold scheduler_part in H; cbn in H; injection H as Hboot _ _ _ _ _ _ _ _;
      unfold launch in Hready; rewrite Hboot in Hready; discriminate Hready.
  - exact He.
  - fold s in Hp, Hw. destruct (Hw Hb) as [Hm Hrest]. split; [exact Hm|].
    intros Hts. destruct Hrest as [Hrest | Hrest]; [contradiction|].
    destruct Hp as [(Hg & _) | (win & a & t0 & rest & _ & _ & Hc & Hg & _ & _ & _ & Hr & _)];
      [contradiction|].
    unfold initial_runs. rewrite Hg, Hc. cbn.
    rewrite (scheduled_rest_no_initial win t0 a rest Hr). split; reflexivity.
Qed.

Lemma initial_run_made_in_production_witness :
  let env := mkEnv None specAssets false true in
  let s := shell_run env (mkDesktop false false)
             [(1000, Core AppReady); (2000, CloseRequest 0%nat); (3000, Minimized 0%nat);
              (6000, Core TimerFires)]
             (shell_launch env 0 (mkTables None None)) in
  initial_runs (core s) = 1%nat.
Proof.
  intros env s.
  refine (proj1 (proj2 (initial_run_made_in_production env (mkDesktop false false) 0
            (mkTables None None)
            [(1000, Core AppReady); (2000, CloseRequest 0%nat); (3000, Minimized 0%nat);
             (6000, Core TimerFires)] eq_refl _ _) _)).
  - vm_compute. reflexivity.
  - vm_compute. reflexivity.
  - vm_compute. reflexivity.
Defined.

Lemma timers_fold_pending (due : list Z) (w : World) :
  pendingCreate (fold_left (fun w' (_ : Z) => isolated startupTimerCallback w') due w)
  = pendingCreate w.
Proof.
  revert w. induction due as [|x due IH]; intros w; cbn [fold_left]; [reflexivity|].
  rewrite IH. destruct (mainWindow w) as [win|] eqn:Hwin.
  - rewrite (startupTimer_window w win Hwin). reflexivity.
  - rewrite (startupTimer_no_window w Hwin). reflexivity.
Qed.

Lemma single_window_step (env : Env) (t : Z) (e : Event) (w : World) :
  isDevelopment env = false -> e <> WindowClosed ->
  window_ready w -> single_window w -> single_window (dispatch env t e w).
Proof.
  intros Hprod Hne Hwr (Hp & Hn & Hb). unfold single_window.
  destruct e; try congruence; unfold dispatch.
  - cbn [boot set_now]. destruct (boot w) eqn:Eb.
    + cbn. rewrite Eb. repeat split; assumption.
    + unfold isolated, whenReadyHandler, createWindow, bind. rewrite Hprod. cbn.
      rewrite Hb by discriminate. repeat split; try assumption; try lia.
      intros H. contradiction.
    + cbn. rewrite Eb. repeat split; assumption.
  - cbn [pendingCreate set_now]. rewrite Hp. cbn. repeat split; assumption.
  - cbn [boot set_now]. destruct (boot w) eqn:Eb; cbn; rewrite ?Eb;
      try (repeat split; assumption).
    destruct (Hwr Eb) as [Hm _].
    unfold isolated, activateHandler. cbn.
    destruct (mainWindow w) eqn:Hw; [|contradiction]. cbn. rewrite Eb.
    repeat split; assumption.
  - set (w1 := set_now (Z.max (now w) t) w).
    destruct (runTimers_frame w1) as (Fb & _ & _). rewrite Fb.
    unfold runTimers. rewrite timers_fold_pending, timers_fold_windows.
    cbn. repeat split; assumption.
  - unfold cronClock. rewrite cron_fold. cbn. repeat split; assumption.
  - cbn. repeat split; assumption.
Qed.

(** X12. In production a running process has made at most one window:
    the window of the ready handler stays open until the process ends,
    so the handler of ['activate'] never finds [mainWindow] null and
    never makes a second window. *)
Theorem one_window_in_production (env : Env) (d : Desktop) (start : Z)
    (tb : Tables) (trace : list (Z * ShellEvent))
    (Hprod : isDevelopment env = false) :
  let s := shell_run env d trace (shell_launch env start tb) in
  exited s = false ->
  (windowsCreated (core s) <= 1)%nat
  /\ openWindows s = seq 0 (windowsCreated (core s))
  /\ (boot (core s) = Ready ->
      forall t, core (shell_dispatch env d t (Core Activate) s)
                = set_now (Z.max (now (core s)) t) (core s)).
Proof.
  intros s He.
  assert (Hcore : core (shell_launch env start tb) = snd (launch env start tb)).
  { unfold shell_launch. destruct (launch env start tb) as [[u|e] w]; cbn [snd];
      [|reflexivity]. destruct (gotTheLock env); [reflexivity|].
    unfold app_quit. cbn. destruct (windowsCreated w); reflexivity. }
  assert (Hboot : boot (snd (launch env start tb)) <> Ready
                  /\ windowsCreated (snd (launch env start tb)) = 0%nat
                  /\ pendingCreate (snd (launch env start tb)) = 0%nat).
  { unfold launch.
    destruct (main_scheduler env (pristine start tb)) as [H | H];
      unfold scheduler_part in H; cbn in H; injection H as Hb _ _ _ _ _ Hn Hp _;
      rewrite Hb, Hn, Hp; repeat split; discriminate. }
  destruct Hboot as (Hb0 & Hn0 & Hp0).
  pose proof (shell_run_core env d
                (fun w => phase start w /\ window_ready w /\ single_window w)) as Hrun.
  destruct (Hrun
              ltac:(intros t e w Hne (Hp & Hw & Hs); split; [|split];
                    [apply dispatch_phase; exact Hp
                    | apply (window_ready_step env start); assumption
                    | apply single_window_step; assumption])
              ltac:(intros t w (Hp & Hw & Hs); split; [|split];
                    [apply phase_clock; exact Hp | exact Hw | exact Hs])
              trace (shell_launch env start tb) (shell_launch_inv env start tb))
    as (Hp & Hw & Hs).
  - rewrite Hcore. split; [left; apply launch_not_started|].
    split; [intros Hready; contradiction|].
    unfold single_window. rewrite Hn0, Hp0. repeat split; lia.
  - exact He.
  - fold s in Hp, Hw, Hs. destruct Hs as (_ & Hn & _).
    pose proof (launched_shell_inv env d start tb trace) as Hinv. fold s in Hinv.
    unfold shell_inv in Hinv. rewrite He in Hinv. destruct Hinv as (_ & Ho & _).
    repeat split; [exact Hn | exact Ho|].
    intros Hb t. destruct (Hw Hb) as [Hm _].
    unfold shell_dispatch. rewrite He. cbn [core sync_windows with_core].
    unfold dispatch. cbn [boot set_now]. rewrite Hb.
    unfold isolated, activateHandler. cbn [mainWindow set_now].
    destruct (mainWindow (core s)); [reflexivity | contradiction].
Qed.

Lemma one_window_in_production_witness :
  let env := mkEnv None specAssets false true in
  let s := shell_run env (mkDesktop false true)
             [(1000, Core AppReady); (2000, CloseRequest 0%nat); (3000, Core Activate)]
             (shell_launch env 0 (mkTables None None)) in
  openWindows s = [0%nat].
Proof.
  intros env s.
  refine (eq_trans (proj1 (proj2 (one_window_in_production env (mkDesktop false true) 0
            (mkTables None None)
            [(1000, Core AppReady); (2000, CloseRequest 0%nat); (3000, Core Activate)]
            eq_refl _))) _).
  - vm_compute. reflexivity.
  - vm_compute. reflexivity.
Defined.
